(** * DriveGuard: the [SleepDatabase] class of [sleep_database.py]

    A shallow embedding of the class that stores the instants at which a
    driver fell asleep in the table [driver] of a PostgreSQL database and
    shows two summaries of it: the most common hour, and a bar chart of
    the 24 hours of the day with a linear trend line.

    - the table is the list of its rows, a clock and the table make the
      state of the world, and the statements of [take_sleep_timestamp]
      run in a small state and exception monad; the object
      ([SleepDatabase]) adds the status of its connection, and each
      method has a [call_] form that raises on a failed or closed
      connection;
    - the pandas pipeline of [plot_sleep_trend] is written on association
      lists (a [Series] is its list of (label, value) pairs);
    - numpy's [float64] values are Rocq's primitive binary64 floats, and
      [np.polyfit], whose LAPACK solver is not part of the repository, is a
      parameter of the development;
    - the SQL statement of [most_common_sleep_hour] is a relation: SQL does
      not order rows that are equal on the ORDER BY key. *)

From Stdlib Require Import String DecimalString Floats Uint63.
From Stdlib Require Import ZArith List Bool Lia Permutation Sorted FinFun.
Import ListNotations.
Open Scope Z_scope.

Set Implicit Arguments.

(** ** Timestamps *)

(** A [TIMESTAMP] (without time zone) is a number of microseconds counted
    from the midnight that starts the epoch day; [datetime.now()] is naive
    local time as well.  The hour of the day is what [EXTRACT(HOUR FROM _)]
    and [Series.dt.hour] compute from it. *)
Definition timestamp : Type := Z.

Definition usec_per_second : Z := 1000000.
Definition usec_per_minute : Z := 60 * usec_per_second.
Definition usec_per_hour : Z := 60 * usec_per_minute.

Definition hour (t : timestamp) : Z := (t / usec_per_hour) mod 24.

(** The instant [hh:mm] of day number [day]. *)
Definition at_time (day hh mm : Z) : timestamp :=
  ((day * 24 + hh) * 60 + mm) * usec_per_minute.

(** ** Lists: sums, counting, sorting *)

Definition sum (l : list Z) : Z := fold_right Z.add 0 l.

(** Python's [range(n)]. *)
Definition range (n : nat) : list Z := map Z.of_nat (seq 0 n).

(** Python's [range(0, stop, 2)] for an even [stop = 2 * n]. *)
Definition range_step2 (n : nat) : list Z := map (fun i => 2 * i) (range n).

(** Number of occurrences of [v] in [l]. *)
Fixpoint count (v : Z) (l : list Z) : Z :=
  match l with
  | [] => 0
  | x :: l' => (if x =? v then 1 else 0) + count v l'
  end.

Section Sorting.
Variable A : Type.
Variable leb : A -> A -> bool.

Fixpoint insert (a : A) (l : list A) : list A :=
  match l with
  | [] => [a]
  | b :: l' => if leb a b then a :: l else b :: insert a l'
  end.

(** Stable insertion sort: an element goes before the first one it is
    [leb] to. *)
Definition isort (l : list A) : list A := fold_right insert [] l.
End Sorting.

(** ** pandas: the part of [Series] that [plot_sleep_trend] uses *)

(** A [Series] of integers with integer labels, in positional order. *)
Definition Series : Type := list (Z * Z).

Definition index (s : Series) : list Z := map fst s.
Definition values (s : Series) : list Z := map snd s.

(** [pd.Series(v, index=idx)] for a scalar [v]. *)
Definition Series_of_scalar (v : Z) (idx : list Z) : Series :=
  map (fun i => (i, v)) idx.

(** The value at label [i] (the first one, should a label repeat). *)
Fixpoint lookup (i : Z) (s : Series) : option Z :=
  match s with
  | [] => None
  | (j, v) :: s' => if j =? i then Some v else lookup i s'
  end.

(** [Series.value_counts()]: one entry per distinct value, labelled by the
    value and holding its number of occurrences, most frequent first. *)
Definition value_counts (l : list Z) : Series :=
  isort (fun a b => snd b <=? snd a)
        (map (fun v => (v, count v l)) (nodup Z.eq_dec l)).

(** [Series.sort_index()]: ascending labels. *)
Definition sort_index (s : Series) : Series :=
  isort (fun a b => fst a <=? fst b) s.

(** [self.update(other)]: the entries of [self] whose label occurs in
    [other] take the value [other] has there; labels of [other] that
    [self] lacks are ignored, and [self] keeps its labels and order. *)
Definition update (self other : Series) : Series :=
  map (fun '(i, v) => (i, match lookup i other with
                          | Some v' => v'
                          | None => v
                          end)) self.

(** ** numpy: binary64 values *)

Open Scope float_scope.

(** An integer as a [float64] (exact below 2^53). *)
Definition float_of_Z (x : Z) : float :=
  if (x <? 0)%Z then - PrimFloat.of_uint63 (Uint63.of_Z (- x))
  else PrimFloat.of_uint63 (Uint63.of_Z x).

(** [np.poly1d(z)(x)]: Horner's rule from the leading coefficient, as
    [np.polyval] runs it. *)
Definition poly1d (z : list float) (x : float) : float :=
  fold_left (fun acc c => acc * x + c) z 0.

(** [np.maximum(a, b)] on scalars: the larger one, and a NaN when either
    is a NaN; of two zeros the second ([np.maximum(-0.0, 0)] is [0.0]). *)
Definition maximum (a b : float) : float :=
  if PrimFloat.is_nan b then b else if a <=? b then b else a.

(** A value that is below zero.  No comparison holds of a NaN. *)
Definition below_zero (v : float) : bool := v <? 0.

(** A degree-1 least-squares fit by the normal equations: the line
    [np.polyfit(x, y, 1)] approximates, leading coefficient first.  It
    instantiates the parameter [polyfit] below on concrete charts. *)
Definition polyfit_normal_equations (x y : list Z) (deg : Z) : list float :=
  let n := Z.of_nat (length x) in
  let sx := sum x in
  let sy := sum y in
  let sxx := sum (map (fun a => a * a)%Z x) in
  let sxy := sum (map (fun '(a, b) => a * b)%Z (combine x y)) in
  let slope := float_of_Z (n * sxy - sx * sy) / float_of_Z (n * sxx - sx * sx) in
  let intercept := (float_of_Z sy - slope * float_of_Z sx) / float_of_Z n in
  [slope; intercept].

Close Scope float_scope.

(** ** [plot_sleep_trend] *)

(** What reaches matplotlib: the bar series, the dashed line when it is
    drawn, and the labels. *)
Record chart : Type := {
  bar : list Z * list Z;
  trendline : option (list Z * list float);
  title : string;
  xlabel : string;
  ylabel : string;
  xticks : list Z
}.

(** The method either prints a line and returns, or shows a chart. *)
Inductive plot_output : Type :=
| Printed (line : string)
| Shown (fig : chart).

(** [sleep_counts]: the frequency of each hour that occurs, by ascending
    hour. *)
Definition sleep_counts (rows : list timestamp) : Series :=
  sort_index (value_counts (map hour rows)).

(** [full_hours] after [full_hours.update(sleep_counts)]. *)
Definition full_hours (rows : list timestamp) : Series :=
  update (Series_of_scalar 0 (range 24)) (sleep_counts rows).

Section Plot.
(** [np.polyfit]: from the x values, the y values and the degree to the
    coefficients, leading one first. *)
Variable polyfit : list Z -> list Z -> Z -> list float.

(** [rows] is what [fetchall()] returns for
    [SELECT driver_asleep FROM driver]. *)
Definition plot_sleep_trend (rows : list timestamp) : plot_output :=
  match rows with
  | [] => Printed "No sleep data to display."
  | _ :: _ =>
      let sleep_counts := sleep_counts rows in
      let full_hours := full_hours rows in
      let x_hours := index full_hours in
      let y := values full_hours in
      Shown {|
        bar := (x_hours, y);
        trendline :=
          if (2 <=? length sleep_counts)%nat then
            let z := polyfit x_hours y 1 in
            let p := poly1d z in
            let trendline_y := map (fun x => p (float_of_Z x)) x_hours in
            let trendline_y := map (fun v => maximum v 0%float) trendline_y in
            Some (x_hours, trendline_y)
          else None;
        title := "Driver Sleep Frequency by Hour";
        xlabel := "Hour (24-hour format)";
        ylabel := "Sleep Occurrences";
        xticks := range_step2 12
      |}
  end.
End Plot.

(** ** [most_common_sleep_hour] *)

(** A row of the query: [(sleep_hour, frequency)]. *)
Definition row : Type := (Z * Z)%type.

(** [SELECT EXTRACT(HOUR FROM driver_asleep) AS sleep_hour, COUNT( * ) AS
    frequency FROM driver GROUP BY sleep_hour]: one row per hour that
    occurs in the table. *)
Definition group_by_hour (tbl : list timestamp) : list row :=
  map (fun h => (h, count h (map hour tbl))) (nodup Z.eq_dec (map hour tbl)).

(** [ORDER BY frequency DESC]: the rows in an order in which the
    frequency never goes up.  Rows of equal frequency may come in either
    order: the statement names no second key. *)
Definition order_by_frequency_desc (rows sorted : list row) : Prop :=
  Permutation rows sorted /\ StronglySorted (fun a b => snd b <= snd a) sorted.

(** [cursor.fetchone()]: the first row of the result, or [None]. *)
Definition fetchone (rows : list row) : option row := hd_error rows.

(** The whole statement, [LIMIT 1] included, followed by [fetchone()]. *)
Definition select_top_hour (tbl : list timestamp) (result : option row) : Prop :=
  exists sorted,
    order_by_frequency_desc (group_by_hour tbl) sorted /\
    result = fetchone (firstn 1 sorted).

(** One way of running the statement: sort the groups with [isort]. *)
Definition select_top_hour_isort (tbl : list timestamp) : option row :=
  fetchone (firstn 1 (isort (fun a b => snd b <=? snd a) (group_by_hour tbl))).

(** Python's [str(n)] and the format [{n:02d}] of an integer. *)
Definition str (n : Z) : string := NilZero.string_of_int (Z.to_int n).

Definition format_02d (n : Z) : string :=
  let s := str n in
  if (String.length s <? 2)%nat then ("0" ++ s)%string else s.

(** The window the method shows: its title and its lines of text. *)
Record window : Type := {
  window_title : string;
  window_text : list string
}.

(** The two branches of [if result:]. *)
Definition show_result (result : option row) : window :=
  match result with
  | Some (sleep_hour, frequency) =>
      {| window_title := "Driver Sleep Analysis";
         window_text :=
           [("Most Common Sleep Hour: " ++ format_02d sleep_hour ++ ":00")%string;
            ("Frequency: " ++ str frequency ++ " occurrences")%string] |}
  | None =>
      {| window_title := "Driver Sleep Analysis";
         window_text := ["No sleep records found"%string] |}
  end.

Definition most_common_sleep_hour (tbl : list timestamp) (shown : window) : Prop :=
  exists result, select_top_hour tbl result /\ shown = show_result result.

(** ** [take_sleep_timestamp] *)

(** The machine's clock and the table [driver]: its committed rows, in
    the order of insertion, and the rows the open transaction has added.
    [driver_asleep] is the primary key of the table.  A [world] is what a
    connection that works sees; the status of the connection (working,
    failed transaction, closed) is part of [SleepDatabase] below. *)
Record world : Type := {
  clock : timestamp;
  driver : list timestamp;
  pending : list timestamp
}.

(** The rows a statement of the connection sees. *)
Definition visible (w : world) : list timestamp := driver w ++ pending w.

Inductive exn : Type :=
| UniqueViolation.

Inductive result (A : Type) : Type :=
| Ok (a : A)
| Raise (e : exn).
Arguments Raise {A} e.

(** A computation returns or raises, and leaves a world in both cases. *)
Definition M (A : Type) : Type := world -> result A * world.

Definition ret {A : Type} (a : A) : M A := fun w => (Ok a, w).

Definition bind {A B : Type} (m : M A) (k : A -> M B) : M B :=
  fun w =>
    match m w with
    | (Ok a, w') => k a w'
    | (Raise e, w') => (Raise e, w')
    end.

Notation "x <- m ;; k" := (bind m (fun x => k))
  (at level 61, m at next level, right associativity).
Notation "m ;; k" := (bind m (fun _ => k))
  (at level 61, right associativity).

(** [datetime.now()]. *)
Definition datetime_now : M timestamp := fun w => (Ok (clock w), w).

(** [INSERT INTO driver (driver_asleep) VALUES (t)]: refused when the key
    is already there. *)
Definition execute_insert (t : timestamp) : M unit :=
  fun w =>
    if existsb (Z.eqb t) (visible w) then (Raise UniqueViolation, w)
    else (Ok tt, {| clock := clock w;
                    driver := driver w;
                    pending := pending w ++ [t] |}).

(** [connection.commit()]. *)
Definition commit : M unit :=
  fun w => (Ok tt, {| clock := clock w;
                      driver := driver w ++ pending w;
                      pending := [] |}).

(** The three statements of the method, as they run on a connection
    that works and has the table: the only exception is the one of the
    insert.  [call_take_sleep_timestamp] below is the method on an
    object of any status, with the exceptions of a failed transaction,
    of a closed cursor and of a missing table. *)
Definition take_sleep_timestamp : M unit :=
  timestamp <- datetime_now ;;
  execute_insert timestamp ;;
  commit.

(** Time passes between two calls: the clock is set by its environment
    (and may be set back). *)
Definition set_clock (t : timestamp) : M unit :=
  fun w => (Ok tt, {| clock := t; driver := driver w; pending := pending w |}).

(** The driver falls asleep at each instant of [ts] in turn. *)
Fixpoint asleep_at (ts : list timestamp) : M unit :=
  match ts with
  | [] => ret tt
  | t :: ts' => set_clock t ;; take_sleep_timestamp ;; asleep_at ts'
  end.

(** The world right after [create_table] made the table. *)
Definition created (w : world) : Prop := driver w = [] /\ pending w = [].

Inductive step : world -> world -> Prop :=
| step_clock (w : world) (t : timestamp) :
    step w (snd (set_clock t w))
| step_take (w : world) :
    step w (snd (take_sleep_timestamp w)).

Inductive reachable : world -> Prop :=
| reach_created (w : world) : created w -> reachable w
| reach_step (w w' : world) : reachable w -> step w w' -> reachable w'.

(** ** The words of the specification *)

(** The number of events of the table in hour [h]. *)
Definition events_in_hour (h : Z) (rows : list timestamp) : Z :=
  Z.of_nat (length (filter (fun t => hour t =? h) rows)).

(** The number of hours of the day with at least one event. *)
Definition hours_with_events (rows : list timestamp) : nat :=
  length (filter (fun h => 0 <? events_in_hour h rows) (range 24)).

(** The dashed line a call draws, if it draws one. *)
Definition drawn_trendline (out : plot_output) : option (list Z * list float) :=
  match out with
  | Printed _ => None
  | Shown fig => trendline fig
  end.

(** ** Stores used as examples *)

(** Two events of hour 22 and 23 and a third of hour 23. *)
Definition late_rows : list timestamp :=
  [at_time 0 22 0; at_time 0 23 0; at_time 1 23 5].

(** Five events in hour 0 and five in hour 1, on five days. *)
Definition tied_rows : list timestamp :=
  flat_map (fun d => [at_time d 0 30; at_time d 1 15]) (range 5).

(** 23:10 and 23:45 of one day, and 07:00 of the three days after. *)
Definition five_events : list timestamp :=
  [at_time 0 23 10; at_time 0 23 45; at_time 1 7 0; at_time 2 7 0; at_time 3 7 0].

(** The same, and 23:00 of the fifth day. *)
Definition six_events : list timestamp := five_events ++ [at_time 4 23 0].

(** A database whose table was just created, at midnight of day 0. *)
Definition new_world : world := {| clock := 0; driver := []; pending := [] |}.

(** ** The object: its connection and the server behind it *)

(** What the server holds durably: the committed rows of the table
    [driver], or nothing when the table does not exist. *)
Definition server : Type := option (list timestamp).

(** A psycopg2 connection (with its cursor) works, or has a failed
    transaction (every statement is refused until a rollback), or is
    closed. *)
Inductive connection_status : Type :=
| Ready
| Failed
| Closed.

(** The exceptions a method lets through: an error of the statement
    itself, a table that is not there, a statement on a failed
    transaction, a statement on a closed cursor. *)
Inductive db_error : Type :=
| DatabaseError (e : exn)
| UndefinedTable
| InFailedSqlTransaction
| InterfaceError.

Inductive outcome (A : Type) : Type :=
| Returned (a : A)
| Raised (e : db_error).
Arguments Raised {A} e.

(** A [SleepDatabase] object: the world its connection sees, whether the
    table is committed on the server, whether [CREATE TABLE] ran in the
    open transaction and still awaits a commit, and the status of the
    connection.  psycopg2 opens a transaction at the first statement and
    commits only on [commit()]; PostgreSQL undoes an uncommitted
    [CREATE TABLE] like any other statement. *)
Record SleepDatabase : Type := {
  connection : world;
  table_committed : bool;
  table_created : bool;
  status : connection_status
}.

Definition server_of (p : SleepDatabase) : server :=
  if table_committed p then Some (driver (connection p)) else None.

Definition table_visible (p : SleepDatabase) : bool :=
  table_committed p || table_created p.

Definition with_status (s : connection_status) (p : SleepDatabase) : SleepDatabase :=
  {| connection := connection p;
     table_committed := table_committed p;
     table_created := table_created p;
     status := s |}.

(** [psycopg2.connect(...)] and [connection.cursor()], on a server that
    answers, at the instant [now]. *)
Definition connect (now : timestamp) (srv : server) : SleepDatabase :=
  {| connection := {| clock := now;
                      driver := match srv with Some rows => rows | None => [] end;
                      pending := [] |};
     table_committed := match srv with Some _ => true | None => false end;
     table_created := false;
     status := Ready |}.

(** [CREATE TABLE IF NOT EXISTS driver (driver_asleep TIMESTAMP PRIMARY
    KEY)]: a table that is there is left as it is; the statement is not
    followed by a commit. *)
Definition create_table (p : SleepDatabase) : outcome unit * SleepDatabase :=
  match status p with
  | Closed => (Raised InterfaceError, p)
  | Failed => (Raised InFailedSqlTransaction, p)
  | Ready =>
      (Returned tt,
       {| connection := connection p;
          table_committed := table_committed p;
          table_created := table_created p || negb (table_committed p);
          status := Ready |})
  end.

(** [__init__]: connect, take a cursor, [create_table]. *)
Definition SleepDatabase_init (now : timestamp) (srv : server) : SleepDatabase :=
  snd (create_table (connect now srv)).

(** [take_sleep_timestamp] on the object: the insert and the commit of
    the connection; the commit makes the table durable too; an exception
    of the insert leaves the transaction failed, and the method has no
    rollback. *)
Definition call_take_sleep_timestamp (p : SleepDatabase) : outcome unit * SleepDatabase :=
  match status p with
  | Closed => (Raised InterfaceError, p)
  | Failed => (Raised InFailedSqlTransaction, p)
  | Ready =>
      if table_visible p then
        match take_sleep_timestamp (connection p) with
        | (Ok _, w') =>
            (Returned tt,
             {| connection := w';
                table_committed := true;
                table_created := false;
                status := Ready |})
        | (Raise e, w') =>
            (Raised (DatabaseError e),
             {| connection := w';
                table_committed := table_committed p;
                table_created := table_created p;
                status := Failed |})
        end
      else (Raised UndefinedTable, with_status Failed p)
  end.

(** [most_common_sleep_hour] on the object: the window it shows, or the
    exception of its [execute]. *)
Definition call_most_common_sleep_hour
    (p : SleepDatabase) (out : outcome window) (p' : SleepDatabase) : Prop :=
  match status p with
  | Closed => out = Raised InterfaceError /\ p' = p
  | Failed => out = Raised InFailedSqlTransaction /\ p' = p
  | Ready =>
      if table_visible p then
        (exists shown,
           most_common_sleep_hour (visible (connection p)) shown /\
           out = Returned shown) /\ p' = p
      else out = Raised UndefinedTable /\ p' = with_status Failed p
  end.

(** [plot_sleep_trend] on the object. *)
Definition call_plot_sleep_trend
    (polyfit : list Z -> list Z -> Z -> list float)
    (p : SleepDatabase) : outcome plot_output * SleepDatabase :=
  match status p with
  | Closed => (Raised InterfaceError, p)
  | Failed => (Raised InFailedSqlTransaction, p)
  | Ready =>
      if table_visible p then
        (Returned (plot_sleep_trend polyfit (visible (connection p))), p)
      else (Raised UndefinedTable, with_status Failed p)
  end.

(** [close_connection]: the cursor and the connection are closed; there
    is no commit before, so what the open transaction did is undone. *)
Definition close_connection (p : SleepDatabase) : SleepDatabase :=
  {| connection := {| clock := clock (connection p);
                      driver := driver (connection p);
                      pending := [] |};
     table_committed := table_committed p;
     table_created := false;
     status := Closed |}.

(** Time passes. *)
Definition pass_time (t : timestamp) (p : SleepDatabase) : SleepDatabase :=
  {| connection := snd (set_clock t (connection p));
     table_committed := table_committed p;
     table_created := table_created p;
     status := status p |}.

(** What can happen to an object without a call of
    [take_sleep_timestamp]: time passes, or one of the other methods
    that run a statement is called. *)
Inductive read_step (p : SleepDatabase) : SleepDatabase -> Prop :=
| rs_time (t : timestamp) : read_step p (pass_time t p)
| rs_create_table : read_step p (snd (create_table p))
| rs_mode (out : outcome window) (p' : SleepDatabase) :
    call_most_common_sleep_hour p out p' -> read_step p p'
| rs_plot (polyfit : list Z -> list Z -> Z -> list float) :
    read_step p (snd (call_plot_sleep_trend polyfit p)).

(** Any method but [close_connection]. *)
Inductive method_step (p : SleepDatabase) : SleepDatabase -> Prop :=
| ms_read (p' : SleepDatabase) : read_step p p' -> method_step p p'
| ms_take : method_step p (snd (call_take_sleep_timestamp p)).

(** The life of the database: method calls, [close_connection], and a
    new object made by [__init__] once the previous one is closed. *)
Inductive lifetime_step (p : SleepDatabase) : SleepDatabase -> Prop :=
| ls_method (p' : SleepDatabase) : method_step p p' -> lifetime_step p p'
| ls_close : lifetime_step p (close_connection p)
| ls_restart (now : timestamp) :
    status p = Closed -> lifetime_step p (SleepDatabase_init now (server_of p)).

(** Zero or more steps. *)
Inductive many (A : Type) (R : A -> A -> Prop) (a : A) : A -> Prop :=
| many_refl : many R a a
| many_step (b c : A) : many R a b -> R b c -> many R a c.

(** A table with one event. *)
Definition one_event : list timestamp := [at_time 0 7 0].

(** The same hour on another day, half an hour later. *)
Definition one_event_moved : list timestamp := [at_time 5 7 30].

(** An object made on a server without the table, at midnight of day 0,
    after one call of [take_sleep_timestamp]. *)
Definition first_night : SleepDatabase :=
  snd (call_take_sleep_timestamp (SleepDatabase_init 0 None)).

(** A tie between hours 1 and 19: 19:00 of day 0, then 01:00 of day 1. *)
Definition tie_1_19 : list timestamp := [at_time 0 19 0; at_time 1 1 0].

(** "The lowest-numbered of the tied hours": no hour with as many events
    as [h] has a smaller number. *)
Definition lowest_of_the_tied (tbl : list timestamp) (h : Z) : Prop :=
  forall h', events_in_hour h' tbl = events_in_hour h tbl -> h <= h'.

(** "A store-write operation that takes a caller-supplied timestamp and
    records exactly that timestamp": what the sentence asks of an
    operation [insert_event]. *)
Definition records_the_callers_timestamp
    (insert_event : timestamp -> SleepDatabase -> outcome unit * SleepDatabase) : Prop :=
  forall (t : timestamp) (p : SleepDatabase),
    status p = Ready ->
    table_visible p = true ->
    ~ In t (visible (connection p)) ->
    fst (insert_event t p) = Returned tt /\
    visible (connection (snd (insert_event t p))) = visible (connection p) ++ [t].

(** The object of [first_night], one day and seven hours later. *)
Definition second_morning : SleepDatabase := pass_time (at_time 1 7 0) first_night.

(** A server that holds two mornings. *)
Definition two_mornings : server := Some [at_time 0 7 0; at_time 1 7 0].

(** A third morning on that server, a restart, and a fourth morning. *)
Definition third_morning : SleepDatabase :=
  snd (call_take_sleep_timestamp (SleepDatabase_init (at_time 2 7 0) two_mornings)).

Definition fourth_morning : SleepDatabase :=
  snd (call_take_sleep_timestamp
         (SleepDatabase_init (at_time 3 7 0) (server_of (close_connection third_morning)))).

(** * Properties *)

(** ** Hours, counting and sums *)

Lemma hour_range (t : timestamp) : 0 <= hour t < 24.
Proof. unfold hour. apply Z.mod_pos_bound. lia. Qed.

Lemma in_range (n : nat) (h : Z) : In h (range n) <-> 0 <= h < Z.of_nat n.
Proof.
  unfold range. rewrite in_map_iff. split.
  - intros (k & <- & Hk). apply in_seq in Hk. lia.
  - intros Hh. exists (Z.to_nat h). split; [lia|]. apply in_seq. lia.
Qed.

Lemma NoDup_range (n : nat) : NoDup (range n).
Proof.
  unfold range. apply Injective_map_NoDup.
  - intros a b. apply Nat2Z.inj.
  - apply seq_NoDup.
Qed.

Lemma length_range (n : nat) : length (range n) = n.
Proof. unfold range. now rewrite length_map, length_seq. Qed.

Lemma count_nonneg (v : Z) (l : list Z) : 0 <= count v l.
Proof. induction l as [|x l IH]; simpl; [lia | destruct (x =? v); lia]. Qed.

Lemma count_In (v : Z) (l : list Z) : 0 < count v l <-> In v l.
Proof.
  induction l as [|x l IH]; simpl.
  - split; [lia | tauto].
  - pose proof (count_nonneg v l). destruct (Z.eqb_spec x v).
    + split; [now left | lia].
    + rewrite <- IH. split; [intros; lia | intros [E|P]; [congruence | lia]].
Qed.

Lemma count_not_In (v : Z) (l : list Z) : ~ In v l -> count v l = 0.
Proof.
  intros N. pose proof (count_nonneg v l). rewrite <- count_In in N. lia.
Qed.

Lemma count_perm (v : Z) (l l' : list Z) :
  Permutation l l' -> count v l = count v l'.
Proof. induction 1; simpl; lia. Qed.

Lemma count_hour (h : Z) (rows : list timestamp) :
  count h (map hour rows) = events_in_hour h rows.
Proof.
  unfold events_in_hour. induction rows as [|t rows IH]; simpl; [reflexivity|].
  rewrite IH. destruct (hour t =? h); simpl length; lia.
Qed.

Lemma events_in_hour_nonneg (h : Z) (rows : list timestamp) :
  0 <= events_in_hour h rows.
Proof. unfold events_in_hour. lia. Qed.

Lemma events_in_hour_perm (h : Z) (rows rows' : list timestamp) :
  Permutation rows rows' -> events_in_hour h rows = events_in_hour h rows'.
Proof.
  intros P. rewrite <- !count_hour. apply count_perm. now apply Permutation_map.
Qed.

Lemma events_in_hour_In (h : Z) (rows : list timestamp) :
  0 < events_in_hour h rows <-> In h (map hour rows).
Proof. rewrite <- count_hour. apply count_In. Qed.

Lemma sum_map_add (A : Type) (f g : A -> Z) (l : list A) :
  sum (map (fun a => f a + g a) l) = sum (map f l) + sum (map g l).
Proof. induction l as [|a l IH]; simpl; lia. Qed.

(** Over a list without repetition, the indicator of [x] sums to one when
    [x] is there. *)
Lemma sum_indicator (x : Z) (l : list Z) :
  NoDup l -> In x l -> sum (map (fun h => if x =? h then 1 else 0) l) = 1.
Proof.
  induction 1 as [|a l Ha Hl IH]; simpl; [tauto|].
  intros [-> | Hx].
  - rewrite Z.eqb_refl.
    assert (E : sum (map (fun h => if x =? h then 1 else 0) l) = 0).
    { clear IH Hl. induction l as [|b l IHl]; simpl; [reflexivity|].
      destruct (Z.eqb_spec x b) as [->|_].
      - exfalso. apply Ha. now left.
      - rewrite IHl; [reflexivity|]. intros F. apply Ha. now right. }
    lia.
  - destruct (Z.eqb_spec x a) as [->|_]; [tauto|]. now rewrite IH.
Qed.

Lemma sum_events (rows : list timestamp) :
  sum (map (fun h => events_in_hour h rows) (range 24)) = Z.of_nat (length rows).
Proof.
  induction rows as [|t rows IH].
  - reflexivity.
  - transitivity (sum (map (fun h => (if hour t =? h then 1 else 0)
                                     + events_in_hour h rows) (range 24))).
    + f_equal. apply map_ext. intros h. rewrite <- !count_hour. reflexivity.
    + rewrite sum_map_add, IH, sum_indicator.
      * simpl length. lia.
      * apply NoDup_range.
      * apply in_range. pose proof (hour_range t). lia.
Qed.

(** ** Sorting *)

Section SortingFacts.
Variable A : Type.
Variable leb : A -> A -> bool.

Lemma insert_perm (a : A) (l : list A) : Permutation (insert leb a l) (a :: l).
Proof.
  induction l as [|b l IH]; simpl.
  - reflexivity.
  - destruct (leb a b).
    + reflexivity.
    + rewrite IH. apply perm_swap.
Qed.

Lemma isort_perm (l : list A) : Permutation (isort leb l) l.
Proof.
  induction l as [|a l IH]; simpl.
  - constructor.
  - rewrite insert_perm. now constructor.
Qed.

Hypothesis leb_total : forall a b, leb a b = true \/ leb b a = true.
Hypothesis leb_trans : forall a b c, leb a b = true -> leb b c = true -> leb a c = true.

Lemma insert_sorted (a : A) (l : list A) :
  StronglySorted (fun x y => leb x y = true) l ->
  StronglySorted (fun x y => leb x y = true) (insert leb a l).
Proof.
  induction 1 as [|b l Hs IH Hb]; simpl.
  - repeat constructor.
  - destruct (leb a b) eqn:E.
    + constructor; [now constructor|].
      constructor; [exact E|].
      eapply Forall_impl; [|exact Hb]. intros c Hc. now apply leb_trans with b.
    + constructor; [exact IH|].
      assert (Hba : leb b a = true) by (destruct (leb_total a b); congruence).
      rewrite Forall_forall in *. intros c Hc.
      apply (Permutation_in _ (insert_perm a l)) in Hc.
      destruct Hc as [<- | Hc]; auto.
Qed.

Lemma isort_sorted (l : list A) :
  StronglySorted (fun x y => leb x y = true) (isort leb l).
Proof.
  induction l as [|a l IH]; simpl.
  - constructor.
  - now apply insert_sorted.
Qed.
End SortingFacts.

(** ** The pandas pipeline *)

Lemma lookup_None (i : Z) (s : Series) :
  lookup i s = None <-> ~ In i (index s).
Proof.
  induction s as [|[j v] s IH]; simpl.
  - tauto.
  - destruct (Z.eqb_spec j i) as [->|N].
    + split; [discriminate | intros F; exfalso; apply F; now left].
    + rewrite IH. tauto.
Qed.

Lemma lookup_Some (i v : Z) (s : Series) :
  NoDup (index s) -> lookup i s = Some v <-> In (i, v) s.
Proof.
  induction s as [|[j u] s IH]; simpl; intros D.
  - split; [discriminate | tauto].
  - inversion D as [|? ? Hj Hs]; subst.
    destruct (Z.eqb_spec j i) as [->|N].
    + split.
      * intros [= ->]. now left.
      * intros [[= ->] | Hin]; [reflexivity|].
        exfalso. apply Hj. change i with (fst (i, v)). now apply in_map.
    + rewrite (IH Hs). split; [tauto | intros [[= ? ?] | Hin]; [congruence | exact Hin]].
Qed.

Lemma sleep_counts_perm (rows : list timestamp) :
  Permutation (sleep_counts rows)
    (map (fun v => (v, count v (map hour rows))) (nodup Z.eq_dec (map hour rows))).
Proof.
  unfold sleep_counts, sort_index, value_counts. now rewrite !isort_perm.
Qed.

Lemma index_sleep_counts (rows : list timestamp) :
  Permutation (index (sleep_counts rows)) (nodup Z.eq_dec (map hour rows)).
Proof.
  unfold index. rewrite (Permutation_map fst (sleep_counts_perm rows)).
  rewrite map_map. simpl. now rewrite map_id.
Qed.

Lemma NoDup_index_sleep_counts (rows : list timestamp) :
  NoDup (index (sleep_counts rows)).
Proof.
  eapply Permutation_NoDup.
  - symmetry. apply index_sleep_counts.
  - apply NoDup_nodup.
Qed.

Lemma in_sleep_counts (h v : Z) (rows : list timestamp) :
  In (h, v) (sleep_counts rows) <->
  In h (map hour rows) /\ v = events_in_hour h rows.
Proof.
  rewrite <- count_hour. split.
  - intros Hin. apply (Permutation_in _ (sleep_counts_perm rows)) in Hin.
    apply in_map_iff in Hin. destruct Hin as (x & [= -> <-] & Hx).
    apply nodup_In in Hx. tauto.
  - intros [Hh ->].
    apply (Permutation_in _ (Permutation_sym (sleep_counts_perm rows))).
    apply in_map_iff. exists h. split; [reflexivity|]. now apply nodup_In.
Qed.

(** [sleep_counts] holds the hours that occur, each with its number of
    events. *)
Lemma lookup_sleep_counts (h : Z) (rows : list timestamp) :
  lookup h (sleep_counts rows) =
  if 0 <? events_in_hour h rows then Some (events_in_hour h rows) else None.
Proof.
  destruct (lookup h (sleep_counts rows)) as [v|] eqn:E.
  - apply lookup_Some in E; [|apply NoDup_index_sleep_counts].
    apply in_sleep_counts in E. destruct E as [Hh ->].
    apply events_in_hour_In in Hh. apply Z.ltb_lt in Hh. now rewrite Hh.
  - apply lookup_None in E.
    destruct (Z.ltb_spec 0 (events_in_hour h rows)) as [P|_]; [|reflexivity].
    exfalso. apply E. apply events_in_hour_In in P.
    apply (Permutation_in _ (Permutation_sym (index_sleep_counts rows))).
    now apply nodup_In.
Qed.

(** The aggregation step: the bar at each of the 24 hours is the number
    of events of that hour. *)
Lemma full_hours_events (rows : list timestamp) :
  full_hours rows = map (fun h => (h, events_in_hour h rows)) (range 24).
Proof.
  unfold full_hours, update, Series_of_scalar. rewrite map_map.
  apply map_ext. intros h. rewrite lookup_sleep_counts.
  destruct (Z.ltb_spec 0 (events_in_hour h rows)) as [_|N]; [reflexivity|].
  pose proof (events_in_hour_nonneg h rows). f_equal. lia.
Qed.

Lemma index_full_hours (rows : list timestamp) :
  index (full_hours rows) = range 24.
Proof.
  rewrite full_hours_events. unfold index. rewrite map_map. apply map_id.
Qed.

Lemma values_full_hours (rows : list timestamp) :
  values (full_hours rows) = map (fun h => events_in_hour h rows) (range 24).
Proof.
  rewrite full_hours_events. unfold values. now rewrite map_map.
Qed.

(** [len(sleep_counts)] is the number of hours with an event. *)
Lemma length_sleep_counts (rows : list timestamp) :
  length (sleep_counts rows) = hours_with_events rows.
Proof.
  unfold hours_with_events.
  rewrite <- (length_map fst (sleep_counts rows)). fold (index (sleep_counts rows)).
  rewrite (Permutation_length (index_sleep_counts rows)).
  apply Permutation_length, NoDup_Permutation.
  - apply NoDup_nodup.
  - apply NoDup_filter, NoDup_range.
  - intros h. rewrite nodup_In, filter_In, Z.ltb_lt, events_in_hour_In, in_range.
    split; [|tauto]. intros Hh. split; [|exact Hh].
    apply in_map_iff in Hh. destruct Hh as (t & <- & _).
    pose proof (hour_range t). lia.
Qed.

Lemma hours_with_events_perm (rows rows' : list timestamp) :
  Permutation rows rows' -> hours_with_events rows = hours_with_events rows'.
Proof.
  intros P. unfold hours_with_events. f_equal. apply filter_ext.
  intros h. now rewrite (events_in_hour_perm h P).
Qed.

Lemma full_hours_perm (rows rows' : list timestamp) :
  Permutation rows rows' -> full_hours rows = full_hours rows'.
Proof.
  intros P. rewrite !full_hours_events. apply map_ext.
  intros h. now rewrite (events_in_hour_perm h P).
Qed.

(** ** [plot_sleep_trend] *)

Lemma nth_map_range (f : Z -> Z) (n : nat) (h : Z) :
  0 <= h < Z.of_nat n -> nth (Z.to_nat h) (map f (range n)) 0 = f h.
Proof.
  intros Hh. unfold range. rewrite map_map.
  rewrite (nth_indep _ 0 (f (Z.of_nat 0))) by (rewrite length_map, length_seq; lia).
  rewrite (map_nth (fun i => f (Z.of_nat i))), seq_nth by lia.
  f_equal. lia.
Qed.

(** What a call on a table that is not empty shows. *)
Lemma plot_sleep_trend_cons
    (polyfit : list Z -> list Z -> Z -> list float)
    (t : timestamp) (rows : list timestamp) :
  plot_sleep_trend polyfit (t :: rows) =
  Shown {|
    bar := (range 24, map (fun h => events_in_hour h (t :: rows)) (range 24));
    trendline :=
      if (2 <=? hours_with_events (t :: rows))%nat then
        Some (range 24,
              map (fun x =>
                     maximum
                       (poly1d
                          (polyfit (range 24)
                             (map (fun h => events_in_hour h (t :: rows)) (range 24)) 1)
                          (float_of_Z x)) 0%float)
                  (range 24))
      else None;
    title := "Driver Sleep Frequency by Hour";
    xlabel := "Hour (24-hour format)";
    ylabel := "Sleep Occurrences";
    xticks := range_step2 12
  |}.
Proof.
  cbv beta iota zeta delta [plot_sleep_trend].
  now rewrite index_full_hours, values_full_hours, length_sleep_counts, map_map.
Qed.

Lemma drawn_trendline_cons
    (polyfit : list Z -> list Z -> Z -> list float)
    (t : timestamp) (rows : list timestamp) :
  drawn_trendline (plot_sleep_trend polyfit (t :: rows)) =
  if (2 <=? hours_with_events (t :: rows))%nat then
    Some (range 24,
          map (fun x =>
                 maximum
                   (poly1d
                      (polyfit (range 24)
                         (map (fun h => events_in_hour h (t :: rows)) (range 24)) 1)
                      (float_of_Z x)) 0%float)
              (range 24))
  else None.
Proof. rewrite plot_sleep_trend_cons. reflexivity. Qed.

Lemma ltb_leb (a b : float) :
  PrimFloat.ltb a b = true -> PrimFloat.leb a b = true.
Proof.
  rewrite FloatAxioms.ltb_spec, FloatAxioms.leb_spec. unfold SFltb, SFleb.
  destruct (SFcompare (Prim2SF a) (Prim2SF b)) as [[]|]; congruence.
Qed.

(** What [maximum _ 0] does: zero for a value that is at most zero, the
    value itself otherwise (a NaN included). *)
Lemma maximum_at_zero (v : float) :
  maximum v 0%float = if PrimFloat.leb v 0 then 0%float else v.
Proof. reflexivity. Qed.

Lemma maximum_zero (v : float) : below_zero (maximum v 0%float) = false.
Proof.
  rewrite maximum_at_zero. unfold below_zero.
  destruct (PrimFloat.leb v 0) eqn:E; [reflexivity|].
  destruct (PrimFloat.ltb v 0) eqn:F; [|reflexivity].
  apply ltb_leb in F. congruence.
Qed.

Lemma hours_with_events_nil : hours_with_events [] = 0%nat.
Proof. reflexivity. Qed.

(** C6: on an empty table [plot_sleep_trend] prints "No sleep data to
    display." and returns; it shows no chart and raises nothing (the
    method's outcome is a value of [plot_output] on every table), and it
    takes this branch on no other table. *)
Theorem plot_sleep_trend_empty
    (polyfit : list Z -> list Z -> Z -> list float) (rows : list timestamp) :
  plot_sleep_trend polyfit [] = Printed "No sleep data to display." /\
  (plot_sleep_trend polyfit rows = Printed "No sleep data to display." <-> rows = []).
Proof.
  split; [reflexivity|]. split.
  - destruct rows as [|t rows]; [reflexivity|].
    rewrite plot_sleep_trend_cons. discriminate.
  - now intros ->.
Qed.

(** C3, as amended: on every table that is not empty, the aggregation of
    [plot_sleep_trend] yields a bar series over the hours 0..23 with
    exactly 24 entries; each entry is the number of events of its hour,
    so it is at least 0, and 0 for an hour without events; the entries
    sum to the number of rows. *)
Theorem aggregation_histogram
    (polyfit : list Z -> list Z -> Z -> list float)
    (t : timestamp) (rows : list timestamp) :
  exists fig,
    plot_sleep_trend polyfit (t :: rows) = Shown fig /\
    bar fig = (index (full_hours (t :: rows)), values (full_hours (t :: rows))) /\
    fst (bar fig) = range 24 /\
    length (snd (bar fig)) = 24%nat /\
    Forall (fun c => 0 <= c) (snd (bar fig)) /\
    (forall h, 0 <= h < 24 ->
       nth (Z.to_nat h) (snd (bar fig)) 0 = events_in_hour h (t :: rows)) /\
    (forall h, 0 <= h < 24 -> ~ In h (map hour (t :: rows)) ->
       nth (Z.to_nat h) (snd (bar fig)) 0 = 0) /\
    sum (snd (bar fig)) = Z.of_nat (length (t :: rows)).
Proof.
  eexists. split; [apply plot_sleep_trend_cons|]. cbn [bar fst snd].
  split; [now rewrite index_full_hours, values_full_hours|].
  split; [reflexivity|].
  split; [now rewrite length_map, length_range|].
  split; [|split; [|split]].
  - apply Forall_forall. intros c Hc. apply in_map_iff in Hc.
    destruct Hc as (h & <- & _). apply events_in_hour_nonneg.
  - intros h Hh. now apply nth_map_range.
  - intros h Hh Hout. rewrite nth_map_range by exact Hh.
    pose proof (events_in_hour_nonneg h (t :: rows)) as P.
    rewrite <- events_in_hour_In in Hout. lia.
  - apply sum_events.
Qed.

(** C3, the claim as stated fails on the empty sequence: the call returns
    before the aggregation, and no histogram comes out of it. *)
Lemma empty_table_has_no_histogram :
  plot_sleep_trend polyfit_normal_equations [] = Printed "No sleep data to display." /\
  ~ (exists fig, plot_sleep_trend polyfit_normal_equations [] = Shown fig /\
                 length (snd (bar fig)) = 24%nat).
Proof.
  split; [reflexivity|]. intros (fig & H & _). discriminate H.
Qed.

(** C2, as amended: a trend line is drawn if and only if at least two
    hours have an event; a table that is not empty gets its bar chart
    whether the line is drawn or not, so with all events in one hour the
    bars are shown without a line; on the empty table nothing is shown. *)
Theorem trendline_policy
    (polyfit : list Z -> list Z -> Z -> list float) (rows : list timestamp) :
  (drawn_trendline (plot_sleep_trend polyfit rows) <> None <->
   (2 <= hours_with_events rows)%nat) /\
  (rows <> [] ->
   exists fig, plot_sleep_trend polyfit rows = Shown fig /\
     bar fig = (range 24, map (fun h => events_in_hour h rows) (range 24)) /\
     ((hours_with_events rows <= 1)%nat -> trendline fig = None)) /\
  (rows = [] -> plot_sleep_trend polyfit rows = Printed "No sleep data to display.").
Proof.
  destruct rows as [|t rows].
  - repeat split.
    + simpl. congruence.
    + rewrite hours_with_events_nil. lia.
    + congruence.
  - rewrite drawn_trendline_cons, plot_sleep_trend_cons.
    destruct (Nat.leb_spec 2 (hours_with_events (t :: rows))) as [G|L].
    + split; [split; [intros _; exact G | discriminate]|].
      split; [|discriminate].
      intros _. eexists. split; [reflexivity|].
      split; [reflexivity | intros F; exfalso; lia].
    + split; [split; [congruence | intros F; exfalso; lia]|].
      split; [|discriminate].
      intros _. eexists. split; [reflexivity|].
      split; [reflexivity | intros _; reflexivity].
Qed.

(** C2, the claim as stated fails when no hour has an event: the trend
    line is omitted, but no bar chart is produced either. *)
Lemma no_bars_without_events :
  hours_with_events [] = 0%nat /\
  ~ (exists fig, plot_sleep_trend polyfit_normal_equations [] = Shown fig).
Proof.
  split; [reflexivity|]. intros (fig & H). discriminate H.
Qed.

(** C7: the aggregation does not depend on the order of the rows: on a
    permutation of the table the aggregation step yields the same
    series, [plot_sleep_trend] has the same output, and a chart it shows
    has the same 24 bars. *)
Theorem aggregation_order_independent
    (polyfit : list Z -> list Z -> Z -> list float)
    (rows rows' : list timestamp) :
  Permutation rows rows' ->
  full_hours rows = full_hours rows' /\
  plot_sleep_trend polyfit rows = plot_sleep_trend polyfit rows' /\
  (forall fig,
     plot_sleep_trend polyfit rows = Shown fig ->
     bar fig = (index (full_hours rows'), values (full_hours rows')) /\
     length (values (full_hours rows')) = 24%nat).
Proof.
  intros P.
  assert (E : plot_sleep_trend polyfit rows = plot_sleep_trend polyfit rows').
  { destruct rows as [|t rows], rows' as [|t' rows'].
    - reflexivity.
    - now apply Permutation_nil in P.
    - symmetry in P. now apply Permutation_nil in P.
    - rewrite !plot_sleep_trend_cons, (hours_with_events_perm P).
      assert (Ey : map (fun h => events_in_hour h (t :: rows)) (range 24)
                   = map (fun h => events_in_hour h (t' :: rows')) (range 24)).
      { apply map_ext. intros h. apply (events_in_hour_perm h P). }
      now rewrite Ey. }
  split; [now apply full_hours_perm|]. split; [exact E|].
  intros fig Hfig. rewrite E in Hfig.
  destruct rows' as [|t' rows']; [discriminate Hfig|].
  rewrite plot_sleep_trend_cons in Hfig.
  rewrite index_full_hours, values_full_hours, length_map, length_range.
  split; [|reflexivity].
  rewrite <- (f_equal (fun o => match o with
                                | Shown f => bar f
                                | Printed _ => ([], [])
                                end) Hfig).
  reflexivity.
Qed.

Lemma aggregation_order_independent_witness :
  Permutation five_events (rev five_events) /\
  full_hours five_events = full_hours (rev five_events) /\
  plot_sleep_trend polyfit_normal_equations five_events
  = plot_sleep_trend polyfit_normal_equations (rev five_events) /\
  (forall fig,
     plot_sleep_trend polyfit_normal_equations five_events = Shown fig ->
     bar fig = (index (full_hours (rev five_events)),
                values (full_hours (rev five_events))) /\
     length (values (full_hours (rev five_events))) = 24%nat).
Proof.
  split.
  - apply Permutation_rev.
  - apply (aggregation_order_independent polyfit_normal_equations
             (Permutation_rev five_events)).
Defined.

Lemma nth_map_range_any (A : Type) (f : Z -> A) (d : A) (n : nat) (h : Z) :
  0 <= h < Z.of_nat n -> nth (Z.to_nat h) (map f (range n)) d = f h.
Proof.
  intros Hh. unfold range. rewrite map_map.
  rewrite (nth_indep _ d (f (Z.of_nat 0))) by (rewrite length_map, length_seq; lia).
  rewrite (map_nth (fun i => f (Z.of_nat i))), seq_nth by lia.
  f_equal. lia.
Qed.

(** C4: whenever [plot_sleep_trend] draws a trend line, the line has one
    value for each of the hours 0..23 (as the floats 0.0 .. 23.0); the
    value at hour [h] is the polynomial of the fitted coefficients
    evaluated at [h] by Horner's rule (for coefficients [m] and [c]:
    [(0 * h + m) * h + c]), replaced by 0 when it is at most 0 and kept
    as it is otherwise; so no value of the line is below 0, whatever
    coefficients the fit returns. *)
Theorem trendline_clamped
    (polyfit : list Z -> list Z -> Z -> list float)
    (rows : list timestamp) (fig : chart) (xs : list Z) (ys : list float) :
  plot_sleep_trend polyfit rows = Shown fig ->
  trendline fig = Some (xs, ys) ->
  xs = range 24 /\
  map float_of_Z xs
  = [0; 1; 2; 3; 4; 5; 6; 7; 8; 9; 10; 11; 12; 13; 14; 15; 16; 17; 18; 19; 20;
     21; 22; 23]%float /\
  length ys = 24%nat /\
  Forall (fun v => below_zero v = false) ys /\
  (forall h, 0 <= h < 24 ->
     nth (Z.to_nat h) ys 0%float
     = if PrimFloat.leb
            (fold_left (fun acc c => (acc * float_of_Z h + c)%float)
               (polyfit (range 24) (values (full_hours rows)) 1) 0%float) 0
       then 0%float
       else fold_left (fun acc c => (acc * float_of_Z h + c)%float)
              (polyfit (range 24) (values (full_hours rows)) 1) 0%float) /\
  (forall m c,
     polyfit (range 24) (values (full_hours rows)) 1 = [m; c] ->
     forall h, 0 <= h < 24 ->
       nth (Z.to_nat h) ys 0%float
       = if PrimFloat.leb ((0 * float_of_Z h + m) * float_of_Z h + c)%float 0
         then 0%float
         else ((0 * float_of_Z h + m) * float_of_Z h + c)%float).
Proof.
  destruct rows as [|t rows]; [discriminate|].
  intros Hfig Hline.
  assert (Hd : drawn_trendline (plot_sleep_trend polyfit (t :: rows)) = Some (xs, ys))
    by (rewrite Hfig; exact Hline).
  rewrite drawn_trendline_cons in Hd.
  destruct (2 <=? hours_with_events (t :: rows))%nat; [|discriminate Hd].
  assert (Ex : range 24 = xs) by congruence.
  assert (Ey : map (fun x =>
                      maximum
                        (poly1d
                           (polyfit (range 24)
                              (map (fun h => events_in_hour h (t :: rows)) (range 24)) 1)
                           (float_of_Z x)) 0%float) (range 24) = ys) by congruence.
  clear Hd Hfig Hline. subst xs ys. rewrite values_full_hours.
  assert (Hn : forall h, 0 <= h < 24 ->
             nth (Z.to_nat h)
               (map (fun x =>
                       maximum
                         (poly1d
                            (polyfit (range 24)
                               (map (fun h => events_in_hour h (t :: rows)) (range 24)) 1)
                            (float_of_Z x)) 0%float) (range 24)) 0%float
             = if PrimFloat.leb
                    (fold_left (fun acc c => (acc * float_of_Z h + c)%float)
                       (polyfit (range 24)
                          (map (fun h => events_in_hour h (t :: rows)) (range 24)) 1)
                       0%float) 0
               then 0%float
               else fold_left (fun acc c => (acc * float_of_Z h + c)%float)
                      (polyfit (range 24)
                         (map (fun h => events_in_hour h (t :: rows)) (range 24)) 1)
                      0%float).
  { intros h Hh.
    rewrite (nth_map_range_any
               (fun x => maximum
                           (poly1d
                              (polyfit (range 24)
                                 (map (fun h => events_in_hour h (t :: rows)) (range 24)) 1)
                              (float_of_Z x)) 0%float) 0%float 24 Hh).
    apply maximum_at_zero. }
  split; [reflexivity|]. split; [reflexivity|]. split.
  { now rewrite length_map, length_range. }
  split.
  { apply Forall_forall. intros v Hv. apply in_map_iff in Hv.
    destruct Hv as (x & <- & _). apply maximum_zero. }
  split; [exact Hn|].
  intros m c Ez h Hh. rewrite (Hn h Hh), Ez. reflexivity.
Qed.

Lemma trendline_clamped_witness :
  exists fig xs ys,
    plot_sleep_trend polyfit_normal_equations late_rows = Shown fig /\
    trendline fig = Some (xs, ys) /\
    length ys = 24%nat /\
    Forall (fun v => below_zero v = false) ys /\
    nth 0 ys 0%float = 0%float /\
    nth 23 ys 0%float = 0x1.d70a3d70a3d7p-2%float.
Proof.
  eexists. eexists. eexists.
  assert (H1 : plot_sleep_trend polyfit_normal_equations late_rows
               = Shown (match plot_sleep_trend polyfit_normal_equations late_rows with
                        | Shown fig => fig
                        | Printed _ =>
                            {| bar := ([], []); trendline := None; title := "";
                               xlabel := ""; ylabel := ""; xticks := [] |}
                        end)) by reflexivity.
  split; [exact H1|]. split; [vm_compute; reflexivity|].
  pose proof (trendline_clamped polyfit_normal_equations late_rows H1 eq_refl) as T.
  split; [exact (proj1 (proj2 (proj2 T)))|].
  split; [exact (proj1 (proj2 (proj2 (proj2 T))))|].
  split; vm_compute; reflexivity.
Defined.

Example unclamped_fit_negative :
  let z := polyfit_normal_equations (range 24) (values (full_hours late_rows)) 1 in
  below_zero (poly1d z (float_of_Z 0)) = true /\
  maximum (poly1d z (float_of_Z 0)) 0%float = 0%float.
Proof. split; reflexivity. Qed.

(** ** [most_common_sleep_hour] *)

Lemma in_group_by_hour (h c : Z) (tbl : list timestamp) :
  In (h, c) (group_by_hour tbl) <->
  In h (map hour tbl) /\ c = events_in_hour h tbl.
Proof.
  unfold group_by_hour. rewrite in_map_iff, <- count_hour. split.
  - intros (x & [= -> <-] & Hx). apply nodup_In in Hx. tauto.
  - intros [Hh ->]. exists h. split; [reflexivity | now apply nodup_In].
Qed.

Lemma group_by_hour_nil (tbl : list timestamp) :
  group_by_hour tbl = [] <-> tbl = [].
Proof.
  split; [|now intros ->].
  destruct tbl as [|t tbl]; [reflexivity|]. intros E. exfalso.
  assert (Hin : In (hour t, events_in_hour (hour t) (t :: tbl)) (group_by_hour (t :: tbl))).
  { apply in_group_by_hour. split; [now left | reflexivity]. }
  now rewrite E in Hin.
Qed.

Lemma StronglySorted_leb (A : Type) (leb : A -> A -> bool) (R : A -> A -> Prop)
    (l : list A) :
  (forall a b, leb a b = true -> R a b) ->
  StronglySorted (fun a b => leb a b = true) l -> StronglySorted R l.
Proof.
  intros HR. induction 1 as [|a l Hl IH Ha]; constructor.
  - exact IH.
  - eapply Forall_impl; [|exact Ha]. intros b. apply HR.
Qed.

Lemma isort_frequency_desc (rows : list row) :
  order_by_frequency_desc rows (isort (fun a b => snd b <=? snd a) rows).
Proof.
  split.
  - symmetry. apply isort_perm.
  - apply StronglySorted_leb with (leb := fun a b : row => snd b <=? snd a).
    + intros a b. apply Z.leb_le.
    + apply isort_sorted.
      * intros a b. rewrite !Z.leb_le. lia.
      * intros a b c. rewrite !Z.leb_le. lia.
Qed.

(** The statement returns nothing on an empty table, and otherwise a
    group of the largest frequency: any one of them. *)
Lemma select_top_hour_spec (tbl : list timestamp) (result : option row) :
  select_top_hour tbl result <->
  match result with
  | None => tbl = []
  | Some r =>
      In r (group_by_hour tbl) /\
      forall r', In r' (group_by_hour tbl) -> snd r' <= snd r
  end.
Proof.
  split.
  - intros (sorted & [P S] & ->). destruct sorted as [|r sorted]; simpl.
    + apply group_by_hour_nil. now apply Permutation_nil; symmetry.
    + split.
      * apply (Permutation_in _ (Permutation_sym P)). now left.
      * intros r' Hr'. apply (Permutation_in _ P) in Hr'.
        inversion S as [|? ? _ Hall]; subst.
        destruct Hr' as [<- | Hr']; [lia|].
        rewrite Forall_forall in Hall. now apply Hall.
  - destruct result as [r|].
    + intros [Hin Hmax]. apply in_split in Hin. destruct Hin as (l1 & l2 & E).
      exists (r :: isort (fun a b => snd b <=? snd a) (l1 ++ l2)). split; [split|].
      * rewrite E. rewrite <- Permutation_middle. constructor.
        symmetry. apply isort_perm.
      * constructor; [apply isort_frequency_desc|].
        apply Forall_forall. intros r' Hr'. apply Hmax. rewrite E.
        apply (Permutation_in _ (isort_perm _ (l1 ++ l2))) in Hr'.
        apply in_app_iff in Hr'. apply in_app_iff. simpl. tauto.
      * reflexivity.
    + intros ->. exists []. split; [split; constructor | reflexivity].
Qed.

(** The statement always has an answer: the one [isort] computes. *)
Lemma select_top_hour_total (tbl : list timestamp) :
  select_top_hour tbl (select_top_hour_isort tbl).
Proof.
  exists (isort (fun a b => snd b <=? snd a) (group_by_hour tbl)).
  split; [apply isort_frequency_desc | reflexivity].
Qed.

Lemma select_top_hour_Some (tbl : list timestamp) (h c : Z) :
  select_top_hour tbl (Some (h, c)) <->
  c = events_in_hour h tbl /\ 0 < c /\ forall h', events_in_hour h' tbl <= c.
Proof.
  rewrite select_top_hour_spec. split.
  - intros [Hin Hmax]. apply in_group_by_hour in Hin. destruct Hin as [Hh ->].
    split; [reflexivity|]. split; [now apply events_in_hour_In|].
    intros h'. destruct (Z.ltb_spec 0 (events_in_hour h' tbl)) as [P|N].
    + apply (Hmax (h', events_in_hour h' tbl)). apply in_group_by_hour.
      split; [now apply events_in_hour_In | reflexivity].
    + apply events_in_hour_In in Hh. simpl. lia.
  - intros (-> & Hpos & Hmax). split.
    + apply in_group_by_hour. split; [now apply events_in_hour_In | reflexivity].
    + intros [h' c'] Hr'. apply in_group_by_hour in Hr'. destruct Hr' as [_ ->].
      apply Hmax.
Qed.

Lemma values_tied_rows : values (full_hours tied_rows) = 5 :: 5 :: repeat 0 22.
Proof. reflexivity. Qed.

Lemma events_tied_rows (h : Z) :
  events_in_hour h tied_rows = if h =? 0 then 5 else if h =? 1 then 5 else 0.
Proof.
  unfold events_in_hour, tied_rows. cbn [flat_map range map seq app Z.of_nat].
  unfold filter.
  repeat match goal with
         | |- context [hour ?t =? h] =>
             let v := eval vm_compute in (hour t) in
             change (hour t) with v
         end.
  destruct (Z.eqb_spec 0 h) as [<-|N0]; [reflexivity|].
  destruct (Z.eqb_spec 1 h) as [<-|N1]; [reflexivity|].
  destruct (Z.eqb_spec h 0); [congruence|].
  destruct (Z.eqb_spec h 1); [congruence|]. reflexivity.
Qed.

Lemma select_top_hour_nonempty (tbl : list timestamp) :
  tbl <> [] -> exists h c, select_top_hour tbl (Some (h, c)).
Proof.
  intros Hne. pose proof (select_top_hour_total tbl) as Ht.
  destruct (select_top_hour_isort tbl) as [[h c]|] eqn:E.
  - now exists h, c.
  - apply select_top_hour_spec in Ht. contradiction.
Qed.

(** What the method shows on a table that is not empty. *)
Lemma most_common_sleep_hour_nonempty (tbl : list timestamp) (shown : window) :
  most_common_sleep_hour tbl shown -> tbl <> [] ->
  exists h c,
    select_top_hour tbl (Some (h, c)) /\
    window_title shown = "Driver Sleep Analysis"%string /\
    window_text shown
    = [("Most Common Sleep Hour: " ++ format_02d h ++ ":00")%string;
       ("Frequency: " ++ str c ++ " occurrences")%string].
Proof.
  intros (result & Hr & ->) Hne. destruct result as [[h c]|].
  - exists h, c. split; [exact Hr|]. split; reflexivity.
  - apply select_top_hour_spec in Hr. contradiction.
Qed.

(** C1, as amended: on a table that is not empty, the query of
    [most_common_sleep_hour] returns a row, and the row it returns holds
    an hour of the largest number of events, together with that number,
    which the window shows; when hours are tied for the largest number
    the hour is one of them, and nothing in the query makes it the
    lowest; on counts 5 at hour 0, 5 at hour 1 and 0 elsewhere the
    answer is hour 0 or hour 1, with frequency 5. *)
Theorem top_hour_is_a_maximal_hour :
  (forall tbl h c,
     select_top_hour tbl (Some (h, c)) ->
     c = events_in_hour h tbl /\ 0 < c /\ forall h', events_in_hour h' tbl <= c) /\
  (forall tbl, tbl <> [] -> exists h c, select_top_hour tbl (Some (h, c))) /\
  (forall tbl shown,
     most_common_sleep_hour tbl shown -> tbl <> [] ->
     exists h c,
       c = events_in_hour h tbl /\
       (forall h', events_in_hour h' tbl <= c) /\
       window_text shown
       = [("Most Common Sleep Hour: " ++ format_02d h ++ ":00")%string;
          ("Frequency: " ++ str c ++ " occurrences")%string]) /\
  (forall result,
     select_top_hour tied_rows result ->
     result = Some (0, 5) \/ result = Some (1, 5)) /\
  (forall shown,
     most_common_sleep_hour tied_rows shown ->
     window_text shown = ["Most Common Sleep Hour: 00:00"%string;
                          "Frequency: 5 occurrences"%string] \/
     window_text shown = ["Most Common Sleep Hour: 01:00"%string;
                          "Frequency: 5 occurrences"%string]).
Proof.
  assert (S : forall tbl h c,
             select_top_hour tbl (Some (h, c)) ->
             c = events_in_hour h tbl /\ 0 < c /\
             forall h', events_in_hour h' tbl <= c).
  { intros tbl h c Hr. now apply select_top_hour_Some. }
  assert (T : forall result,
             select_top_hour tied_rows result ->
             result = Some (0, 5) \/ result = Some (1, 5)).
  { intros [[h c]|] Hr.
    - apply S in Hr. destruct Hr as (Hc & Hpos & _). subst c.
      rewrite events_tied_rows in Hpos |- *.
      destruct (Z.eqb_spec h 0) as [E0|N0]; [left; now rewrite E0|].
      destruct (Z.eqb_spec h 1) as [E1|N1]; [right; now rewrite E1 | lia].
    - apply select_top_hour_spec in Hr. discriminate Hr. }
  split; [exact S|]. split; [exact select_top_hour_nonempty|]. split; [|split].
  - intros tbl shown Hs Hne.
    destruct (most_common_sleep_hour_nonempty Hs Hne) as (h & c & Hr & _ & Ht).
    apply S in Hr. destruct Hr as (Hc & _ & Hmax).
    exists h, c. split; [exact Hc|]. split; [exact Hmax | exact Ht].
  - exact T.
  - intros shown (result & Hr & ->). apply T in Hr.
    destruct Hr as [-> | ->]; [left | right]; reflexivity.
Qed.

(** C1, the claim as stated fails: it is not so that the hour the query
    returns is always the lowest-numbered of the tied hours.  With one
    event at 19:00 and one at 01:00 of the next day the query may return
    hour 19: the order of the two rows of equal frequency is left to the
    database. *)
Lemma tie_not_broken_to_lowest_hour :
  ~ (forall tbl h c,
       select_top_hour tbl (Some (h, c)) -> lowest_of_the_tied tbl h).
Proof.
  intros H.
  assert (Hr : select_top_hour tie_1_19 (Some (19, 1))).
  { apply select_top_hour_spec.
    change (group_by_hour tie_1_19) with [(19, 1); (1, 1)]. split.
    - now left.
    - intros r' [<- | [<- | []]]; simpl; lia. }
  specialize (H tie_1_19 19 1 Hr 1 eq_refl). lia.
Qed.

(** C5: on an empty table [most_common_sleep_hour] shows the window "No
    sleep records found" and no other; on every table the method shows
    a window, and it shows "No sleep records found" exactly when the
    table is empty; on a table that is not empty the window names an
    hour and a frequency of at least 1, the number of events of that
    hour, so hour 0 with count 0 is never reported; and the window of a
    row is never the window of "no records". *)
Theorem no_records_branch :
  (forall shown, most_common_sleep_hour [] shown <-> shown = show_result None) /\
  window_text (show_result None) = ["No sleep records found"%string] /\
  (forall tbl, select_top_hour tbl (select_top_hour_isort tbl)) /\
  (forall tbl result, select_top_hour tbl result -> (result = None <-> tbl = [])) /\
  (forall tbl h c, select_top_hour tbl (Some (h, c)) -> 1 <= c) /\
  (forall r, show_result (Some r) <> show_result None) /\
  (forall tbl, exists shown, most_common_sleep_hour tbl shown) /\
  (forall tbl shown,
     most_common_sleep_hour tbl shown ->
     (window_text shown = ["No sleep records found"%string] <-> tbl = [])) /\
  (forall tbl shown,
     most_common_sleep_hour tbl shown -> tbl <> [] ->
     exists h c,
       1 <= c /\ c = events_in_hour h tbl /\
       window_title shown = "Driver Sleep Analysis"%string /\
       window_text shown
       = [("Most Common Sleep Hour: " ++ format_02d h ++ ":00")%string;
          ("Frequency: " ++ str c ++ " occurrences")%string]).
Proof.
  assert (E0 : forall shown, most_common_sleep_hour [] shown <-> shown = show_result None).
  { intros shown. unfold most_common_sleep_hour. split.
    - intros (result & Hr & ->). apply select_top_hour_spec in Hr.
      destruct result as [r|]; [|reflexivity].
      destruct Hr as [[] _].
    - intros ->. exists None. split; [|reflexivity].
      now apply select_top_hour_spec. }
  split; [exact E0|].
  split; [reflexivity|]. split; [exact select_top_hour_total|].
  split; [|split; [|split; [|split; [|split]]]].
  - intros tbl result Hr. apply select_top_hour_spec in Hr.
    destruct result as [r|]; split; try discriminate; try tauto.
    intros ->. destruct Hr as [[] _].
  - intros tbl h c Hr. apply select_top_hour_Some in Hr. lia.
  - intros [h c] E. apply (f_equal (fun w => length (window_text w))) in E.
    discriminate E.
  - intros tbl. exists (show_result (select_top_hour_isort tbl)).
    exists (select_top_hour_isort tbl). split; [apply select_top_hour_total | reflexivity].
  - intros tbl shown Hs. destruct tbl as [|t tbl].
    + apply E0 in Hs. subst shown. split; reflexivity.
    + assert (Hne : t :: tbl <> []) by discriminate.
      destruct (most_common_sleep_hour_nonempty Hs Hne) as (h & c & _ & _ & Ht).
      rewrite Ht. split; intros F; discriminate F.
  - intros tbl shown Hs Hne.
    destruct (most_common_sleep_hour_nonempty Hs Hne) as (h & c & Hr & Hti & Ht).
    apply select_top_hour_Some in Hr. destruct Hr as (Hc & Hpos & _).
    exists h, c. split; [lia|]. split; [exact Hc|]. split; [exact Hti | exact Ht].
Qed.

(** ** [take_sleep_timestamp] and the table *)

Lemma existsb_eqb_In (t : timestamp) (l : list timestamp) :
  existsb (Z.eqb t) l = true <-> In t l.
Proof.
  rewrite existsb_exists. split.
  - intros (x & Hx & E). apply Z.eqb_eq in E. now subst.
  - intros Hin. exists t. split; [exact Hin | apply Z.eqb_refl].
Qed.

(** The two ways a call ends. *)
Lemma take_sleep_timestamp_cases (w : world) :
  (In (clock w) (visible w) /\
   take_sleep_timestamp w = (Raise UniqueViolation, w)) \/
  (~ In (clock w) (visible w) /\
   take_sleep_timestamp w =
   (Ok tt, {| clock := clock w;
              driver := driver w ++ pending w ++ [clock w];
              pending := [] |})).
Proof.
  unfold take_sleep_timestamp, bind, datetime_now, execute_insert, commit.
  destruct (existsb (Z.eqb (clock w)) (visible w)) eqn:E.
  - left. split; [now apply existsb_eqb_In | reflexivity].
  - right. split; [|reflexivity].
    intros Hin. apply existsb_eqb_In in Hin. congruence.
Qed.

Lemma NoDup_snoc (x : timestamp) (l : list timestamp) :
  NoDup l -> ~ In x l -> NoDup (l ++ [x]).
Proof.
  intros Hl Hx. apply (Permutation_NoDup (l := x :: l)).
  - rewrite Permutation_app_comm. reflexivity.
  - now constructor.
Qed.

Lemma step_keeps_key (w w' : world) :
  step w w' ->
  NoDup (visible w) /\ pending w = [] ->
  NoDup (visible w') /\ pending w' = [].
Proof.
  intros St [Hd Hp]. destruct St as [w t | w].
  - split; assumption.
  - destruct (take_sleep_timestamp_cases w) as [[_ ->] | [Hnew ->]].
    + split; assumption.
    + split; [|reflexivity]. unfold visible in *. cbn [driver pending snd].
      rewrite app_nil_r, app_assoc. now apply NoDup_snoc.
Qed.

(** C10: [driver_asleep] is the primary key: a call at an instant that
    is already in the table raises [UniqueViolation] and leaves the world
    as it was; and in every world reached from a new table by calls of
    [take_sleep_timestamp] and changes of the clock, the rows of the
    table are pairwise distinct (and all committed). *)
Theorem primary_key_enforced :
  (forall w, In (clock w) (visible w) ->
             take_sleep_timestamp w = (Raise UniqueViolation, w)) /\
  (forall w, reachable w ->
             NoDup (visible w) /\ NoDup (driver w) /\ pending w = []).
Proof.
  split.
  - intros w Hin.
    destruct (take_sleep_timestamp_cases w) as [[_ E] | [Hnew _]];
      [exact E | contradiction].
  - intros w R.
    assert (I : NoDup (visible w) /\ pending w = []).
    { induction R as [w [Hd Hp] | w w' _ IH St].
      - unfold visible. rewrite Hd, Hp. split; [constructor | reflexivity].
      - now apply (step_keeps_key St). }
    destruct I as [Hd Hp]. split; [exact Hd|]. split; [|exact Hp].
    unfold visible in Hd. now rewrite Hp, app_nil_r in Hd.
Qed.

Example second_call_at_the_same_instant :
  asleep_at [at_time 0 7 0] new_world
  = (Ok tt, {| clock := at_time 0 7 0; driver := [at_time 0 7 0]; pending := [] |}) /\
  take_sleep_timestamp (snd (asleep_at [at_time 0 7 0] new_world))
  = (Raise UniqueViolation,
     {| clock := at_time 0 7 0; driver := [at_time 0 7 0]; pending := [] |}).
Proof. split; reflexivity. Qed.

(** ** End to end *)

Lemma asleep_at_reachable (ts : list timestamp) (w : world) :
  reachable w -> reachable (snd (asleep_at ts w)).
Proof.
  revert w. induction ts as [|t ts IH]; intros w R; simpl.
  - exact R.
  - unfold bind at 1. cbn [set_clock].
    set (w1 := {| clock := t; driver := driver w; pending := pending w |}).
    assert (R1 : reachable w1) by (apply (reach_step R), (step_clock w t)).
    unfold bind at 1.
    assert (R2 : reachable (snd (take_sleep_timestamp w1)))
      by (apply (reach_step R1), step_take).
    destruct (take_sleep_timestamp w1) as [[[]|e] w2]; simpl in *.
    + now apply IH.
    + exact R2.
Qed.

Lemma group_by_hour_five_events : group_by_hour five_events = [(23, 2); (7, 3)].
Proof. reflexivity. Qed.

(** C9, as amended: after events at 23:10 and 23:45 and at 07:00 on
    three days (five instants: hour 23 twice, hour 7 three times), put
    into a new table by [take_sleep_timestamp], the query of
    [most_common_sleep_hour] returns hour 7 with frequency 3, and the
    bars of [plot_sleep_trend] are 3 at hour 7, 2 at hour 23 and 0
    elsewhere, 5 in all. *)
Theorem five_events_end_to_end :
  exists w,
    asleep_at five_events new_world = (Ok tt, w) /\
    visible w = five_events /\
    (forall result, select_top_hour (visible w) result <-> result = Some (7, 3)) /\
    (forall shown, most_common_sleep_hour (visible w) shown <->
                   window_text shown = ["Most Common Sleep Hour: 07:00"%string;
                                        "Frequency: 3 occurrences"%string] /\
                   window_title shown = "Driver Sleep Analysis"%string) /\
    (forall polyfit, exists fig,
       plot_sleep_trend polyfit (visible w) = Shown fig /\
       snd (bar fig) = repeat 0 7 ++ [3] ++ repeat 0 15 ++ [2] /\
       nth 7 (snd (bar fig)) 0 = 3 /\
       nth 23 (snd (bar fig)) 0 = 2 /\
       sum (snd (bar fig)) = 5).
Proof.
  exists {| clock := at_time 3 7 0; driver := five_events; pending := [] |}.
  split; [reflexivity|]. split; [reflexivity|].
  change (visible _) with five_events.
  assert (T : forall result,
             select_top_hour five_events result <-> result = Some (7, 3)).
  { intros result. rewrite select_top_hour_spec, group_by_hour_five_events.
    destruct result as [r|]; split.
    - intros [[<- | [<- | []]] Hmax]; [|reflexivity].
      assert (F : snd (7, 3) <= snd (23, 2)) by (apply Hmax; simpl; tauto).
      simpl in F. lia.
    - intros [= ->]. split; [simpl; tauto|].
      intros r' [<- | [<- | []]]; simpl; lia.
    - discriminate.
    - discriminate. }
  split; [exact T|]. split.
  - intros shown. unfold most_common_sleep_hour. split.
    + intros (result & Hr & ->). apply T in Hr. subst result. split; reflexivity.
    + intros [Htext Htitle]. exists (Some (7, 3)). split; [now apply T|].
      destruct shown as [ti te]. simpl in *. now subst.
  - intros polyfit. eexists. split; [reflexivity|]. repeat split.
Qed.

Lemma group_by_hour_six_events : group_by_hour six_events = [(7, 3); (23, 3)].
Proof. reflexivity. Qed.

(** C9, the claim as stated fails: with 23:00 of a further day among the
    events, as the claim lists them, hour 23 has three events and the
    table six, and hour 23 ties with hour 7 for the most common hour. *)
Lemma six_events_end_to_end :
  exists w,
    asleep_at six_events new_world = (Ok tt, w) /\
    visible w = six_events /\
    nth 23 (values (full_hours (visible w))) 0 = 3 /\
    sum (values (full_hours (visible w))) = 6 /\
    select_top_hour (visible w) (Some (23, 3)) /\
    ~ (nth 23 (values (full_hours (visible w))) 0 = 2 /\
       sum (values (full_hours (visible w))) = 5).
Proof.
  exists {| clock := at_time 4 23 0; driver := six_events; pending := [] |}.
  split; [reflexivity|]. split; [reflexivity|].
  split; [reflexivity|]. split; [reflexivity|].
  change (visible _) with six_events. split.
  - apply select_top_hour_spec. rewrite group_by_hour_six_events. split.
    + simpl. tauto.
    + intros r' [<- | [<- | []]]; simpl; lia.
  - intros [E _]. vm_compute in E. discriminate E.
Qed.

(** * Further properties *)

(** ** The answer of [most_common_sleep_hour] *)

Lemma events_in_hour_le_length (h : Z) (rows : list timestamp) :
  events_in_hour h rows <= Z.of_nat (length rows).
Proof.
  unfold events_in_hour. apply inj_le, filter_length_le.
Qed.

Lemma events_in_hour_hour_range (h : Z) (rows : list timestamp) :
  0 < events_in_hour h rows -> 0 <= h < 24.
Proof.
  intros P. apply events_in_hour_In, in_map_iff in P.
  destruct P as (t & <- & _). apply hour_range.
Qed.

Lemma format_02d_two_digits (h : Z) :
  0 <= h < 24 -> String.length (format_02d h) = 2%nat.
Proof.
  intros Hh.
  assert (N : forall n, (n < 24)%nat ->
                        String.length (format_02d (Z.of_nat n)) = 2%nat).
  { intros n Hn. do 24 (destruct n as [|n]; [reflexivity|]). lia. }
  specialize (N (Z.to_nat h)). rewrite Z2Nat.id in N by lia. apply N. lia.
Qed.

Lemma events_five_events (h : Z) :
  events_in_hour h five_events = if h =? 7 then 3 else if h =? 23 then 2 else 0.
Proof.
  unfold events_in_hour, five_events, filter.
  repeat match goal with
         | |- context [hour ?t =? h] =>
             let v := eval vm_compute in (hour t) in
             change (hour t) with v
         end.
  destruct (Z.eqb_spec 7 h) as [<-|N7]; [reflexivity|].
  destruct (Z.eqb_spec 23 h) as [<-|N23]; [reflexivity|].
  destruct (Z.eqb_spec h 7); [congruence|].
  destruct (Z.eqb_spec h 23); [congruence|]. reflexivity.
Qed.

Lemma five_events_top : select_top_hour five_events (Some (7, 3)).
Proof.
  apply select_top_hour_Some. rewrite events_five_events.
  split; [reflexivity|]. split; [lia|].
  intros h'. rewrite events_five_events. destruct (h' =? 7), (h' =? 23); lia.
Qed.

(** X1: a row that [most_common_sleep_hour] reads has an hour of the day
    in 0..23, which the window prints with exactly two digits, and a
    frequency between 1 and the number of rows of the table. *)
Theorem reported_hour_and_frequency_bounds (tbl : list timestamp) (h c : Z) :
  select_top_hour tbl (Some (h, c)) ->
  0 <= h < 24 /\
  String.length (format_02d h) = 2%nat /\
  1 <= c <= Z.of_nat (length tbl).
Proof.
  intros Hr. apply select_top_hour_Some in Hr. destruct Hr as (-> & Hpos & _).
  pose proof (events_in_hour_hour_range h tbl Hpos) as Hh.
  pose proof (events_in_hour_le_length h tbl).
  split; [exact Hh|]. split; [now apply format_02d_two_digits | lia].
Qed.

Lemma reported_hour_and_frequency_bounds_witness :
  select_top_hour five_events (Some (7, 3)) /\
  (0 <= 7 < 24 /\
   String.length (format_02d 7) = 2%nat /\
   1 <= 3 <= Z.of_nat (length five_events)).
Proof.
  split.
  - exact five_events_top.
  - exact (reported_hour_and_frequency_bounds five_events_top).
Defined.

Lemma five_events_no_tie (h' : Z) :
  h' <> 7 -> events_in_hour h' five_events < events_in_hour 7 five_events.
Proof.
  intros N. rewrite !events_five_events. simpl.
  destruct (Z.eqb_spec h' 7); [contradiction|]. destruct (h' =? 23); lia.
Qed.

(** X2: when one hour has strictly more events than every other hour,
    the query of [most_common_sleep_hour] has exactly one possible
    answer: that hour, with its number of events. *)
Theorem top_hour_unique_without_tie (tbl : list timestamp) (h : Z) :
  (forall h', h' <> h -> events_in_hour h' tbl < events_in_hour h tbl) ->
  forall result,
    select_top_hour tbl result <-> result = Some (h, events_in_hour h tbl).
Proof.
  intros Hdom.
  assert (Hpos : 0 < events_in_hour h tbl).
  { pose proof (events_in_hour_nonneg (h + 1) tbl).
    assert (events_in_hour (h + 1) tbl < events_in_hour h tbl) by (apply Hdom; lia).
    lia. }
  intros [[h2 c]|].
  - rewrite select_top_hour_Some. split.
    + intros (-> & _ & Hmax).
      destruct (Z.eq_dec h2 h) as [->|N]; [reflexivity|].
      specialize (Hmax h). specialize (Hdom h2 N). lia.
    + intros [= -> ->]. split; [reflexivity|]. split; [exact Hpos|].
      intros h'. destruct (Z.eq_dec h' h) as [->|N]; [lia|].
      specialize (Hdom h' N). lia.
  - rewrite select_top_hour_spec. split; [|discriminate].
    intros ->. exfalso. unfold events_in_hour in Hpos. simpl in Hpos. lia.
Qed.

Lemma top_hour_unique_without_tie_witness :
  (forall h', h' <> 7 -> events_in_hour h' five_events < events_in_hour 7 five_events) /\
  (select_top_hour five_events (Some (23, 2)) <->
   Some (23, 2) = Some (7, events_in_hour 7 five_events)).
Proof.
  split.
  - exact five_events_no_tie.
  - exact (top_hour_unique_without_tie five_events five_events_no_tie (Some (23, 2))).
Defined.

(** X3: the two summaries agree: on a table for which
    [most_common_sleep_hour] reads hour [h] with frequency [c],
    [plot_sleep_trend] shows a chart whose bar at hour [h] is [c], and
    no bar of the chart is higher. *)
Theorem top_hour_is_the_tallest_bar
    (polyfit : list Z -> list Z -> Z -> list float)
    (tbl : list timestamp) (h c : Z) :
  select_top_hour tbl (Some (h, c)) ->
  exists fig,
    plot_sleep_trend polyfit tbl = Shown fig /\
    nth (Z.to_nat h) (snd (bar fig)) 0 = c /\
    Forall (fun b => b <= c) (snd (bar fig)).
Proof.
  intros Hr. apply select_top_hour_Some in Hr. destruct Hr as (-> & Hpos & Hmax).
  pose proof (events_in_hour_hour_range h tbl Hpos) as Hh.
  destruct tbl as [|t rows]; [unfold events_in_hour in Hpos; simpl in Hpos; lia|].
  eexists. split; [apply plot_sleep_trend_cons|]. cbn [bar snd]. split.
  - now apply nth_map_range.
  - apply Forall_forall. intros b Hb. apply in_map_iff in Hb.
    destruct Hb as (h' & <- & _). apply Hmax.
Qed.

Lemma top_hour_is_the_tallest_bar_witness :
  select_top_hour five_events (Some (7, 3)) /\
  exists fig,
    plot_sleep_trend polyfit_normal_equations five_events = Shown fig /\
    nth (Z.to_nat 7) (snd (bar fig)) 0 = 3 /\
    Forall (fun b => b <= 3) (snd (bar fig)).
Proof.
  split.
  - exact five_events_top.
  - exact (top_hour_is_the_tallest_bar polyfit_normal_equations five_events_top).
Defined.

(** X4: the answers of the query of [most_common_sleep_hour], and the
    windows the method can show, do not depend on the order of the rows
    of the table. *)
Theorem top_hour_order_independent (tbl tbl' : list timestamp) :
  Permutation tbl tbl' ->
  (forall result, select_top_hour tbl result <-> select_top_hour tbl' result) /\
  (forall shown, most_common_sleep_hour tbl shown <-> most_common_sleep_hour tbl' shown).
Proof.
  intros P.
  assert (T : forall result, select_top_hour tbl result <-> select_top_hour tbl' result).
  { intros [[h c]|].
    - rewrite !select_top_hour_Some, (events_in_hour_perm h P).
      split; intros (E & Hpos & Hmax); (split; [exact E|]; split; [exact Hpos|]);
        intros h'; specialize (Hmax h');
        rewrite (events_in_hour_perm h' P) in *; exact Hmax.
    - rewrite !select_top_hour_spec. split; intros ->.
      + now apply Permutation_nil.
      + symmetry in P. now apply Permutation_nil. }
  split; [exact T|]. intros shown. unfold most_common_sleep_hour.
  split; intros (result & Hr & ->); exists result; (split; [now apply T | reflexivity]).
Qed.

Lemma top_hour_order_independent_witness :
  Permutation five_events (rev five_events) /\
  (select_top_hour five_events (Some (7, 3)) <->
   select_top_hour (rev five_events) (Some (7, 3))).
Proof.
  split.
  - apply Permutation_rev.
  - exact (proj1 (top_hour_order_independent (Permutation_rev five_events))
             (Some (7, 3))).
Defined.

(** ** The chart of [plot_sleep_trend] *)

(** X5: a chart that [plot_sleep_trend] shows is never flat at zero:
    some hour has a bar of at least 1, and every bar is between 0 and
    the number of rows of the table. *)
Theorem shown_chart_has_an_event
    (polyfit : list Z -> list Z -> Z -> list float)
    (rows : list timestamp) (fig : chart) :
  plot_sleep_trend polyfit rows = Shown fig ->
  (exists h, 0 <= h < 24 /\ 1 <= nth (Z.to_nat h) (snd (bar fig)) 0) /\
  Forall (fun b => 0 <= b <= Z.of_nat (length rows)) (snd (bar fig)).
Proof.
  destruct rows as [|t rows]; [discriminate|].
  rewrite plot_sleep_trend_cons. intros E.
  assert (Eb : snd (bar fig) = map (fun h => events_in_hour h (t :: rows)) (range 24)).
  { rewrite <- (f_equal (fun o => match o with
                                  | Shown f => snd (bar f)
                                  | Printed _ => []
                                  end) E). reflexivity. }
  rewrite Eb. split.
  - exists (hour t). pose proof (hour_range t) as Ht. split; [exact Ht|].
    rewrite nth_map_range by exact Ht.
    assert (0 < events_in_hour (hour t) (t :: rows)); [|lia].
    apply events_in_hour_In. now left.
  - apply Forall_forall. intros b Hb. apply in_map_iff in Hb.
    destruct Hb as (h & <- & _).
    pose proof (events_in_hour_nonneg h (t :: rows)).
    pose proof (events_in_hour_le_length h (t :: rows)). lia.
Qed.

Lemma shown_chart_has_an_event_witness :
  exists fig,
    plot_sleep_trend polyfit_normal_equations one_event = Shown fig /\
    (exists h, 0 <= h < 24 /\ 1 <= nth (Z.to_nat h) (snd (bar fig)) 0) /\
    Forall (fun b => 0 <= b <= Z.of_nat (length one_event)) (snd (bar fig)).
Proof.
  eexists. split.
  - apply plot_sleep_trend_cons.
  - apply (shown_chart_has_an_event polyfit_normal_equations one_event).
    apply plot_sleep_trend_cons.
Defined.

(** X6: the output of [plot_sleep_trend] depends on the table only
    through the number of events in each hour: two tables with the same
    24 counts (whatever the days, minutes and order of their events)
    give the same output. *)
Theorem plot_depends_on_hour_counts_only
    (polyfit : list Z -> list Z -> Z -> list float)
    (rows rows' : list timestamp) :
  (forall h, events_in_hour h rows = events_in_hour h rows') ->
  plot_sleep_trend polyfit rows = plot_sleep_trend polyfit rows'.
Proof.
  intros Hc.
  assert (Ey : forall l, map (fun h => events_in_hour h rows) l
                         = map (fun h => events_in_hour h rows') l).
  { intros l. apply map_ext. exact Hc. }
  assert (El : Z.of_nat (length rows) = Z.of_nat (length rows')).
  { now rewrite <- !sum_events, Ey. }
  assert (Eh : hours_with_events rows = hours_with_events rows').
  { unfold hours_with_events. f_equal. apply filter_ext.
    intros h. now rewrite Hc. }
  destruct rows as [|t rows], rows' as [|t' rows']; try (simpl in El; lia).
  - reflexivity.
  - now rewrite !plot_sleep_trend_cons, Eh, Ey.
Qed.

Lemma one_event_moved_counts (h : Z) :
  events_in_hour h one_event = events_in_hour h one_event_moved.
Proof.
  unfold events_in_hour, one_event, one_event_moved, filter.
  change (hour (at_time 0 7 0)) with 7. change (hour (at_time 5 7 30)) with 7.
  now destruct (7 =? h).
Qed.

Lemma plot_depends_on_hour_counts_only_witness :
  (forall h, events_in_hour h one_event = events_in_hour h one_event_moved) /\
  plot_sleep_trend polyfit_normal_equations one_event
  = plot_sleep_trend polyfit_normal_equations one_event_moved.
Proof.
  split.
  - exact one_event_moved_counts.
  - exact (plot_depends_on_hour_counts_only polyfit_normal_equations
             one_event one_event_moved one_event_moved_counts).
Defined.

Lemma two_distinct (l : list Z) :
  (2 <= length (nodup Z.eq_dec l))%nat <->
  exists a b, In a l /\ In b l /\ a <> b.
Proof.
  pose proof (NoDup_nodup Z.eq_dec l) as D.
  assert (I : forall x, In x (nodup Z.eq_dec l) <-> In x l)
    by (intros x; apply nodup_In).
  destruct (nodup Z.eq_dec l) as [|a [|b k]]; simpl.
  - split; [lia|]. intros (a & _ & Ha & _). now apply I in Ha.
  - split; [lia|]. intros (x & y & Hx & Hy & N).
    apply I in Hx, Hy. simpl in Hx, Hy. destruct Hx as [<-|[]], Hy as [<-|[]].
    exfalso. now apply N.
  - split; [|lia]. intros _. exists a, b.
    split; [apply I; simpl; tauto|]. split; [apply I; simpl; tauto|].
    inversion D as [|? ? Ha _]. intros ->. apply Ha. now left.
Qed.

Lemma hours_with_events_nodup (rows : list timestamp) :
  hours_with_events rows = length (nodup Z.eq_dec (map hour rows)).
Proof.
  rewrite <- length_sleep_counts, <- (Permutation_length (index_sleep_counts rows)).
  unfold index. now rewrite length_map.
Qed.

(** X7: [plot_sleep_trend] draws the trend line exactly when two rows
    of the table fall in different hours of the day. *)
Theorem trendline_iff_two_rows_in_different_hours
    (polyfit : list Z -> list Z -> Z -> list float) (rows : list timestamp) :
  drawn_trendline (plot_sleep_trend polyfit rows) <> None <->
  exists t1 t2, In t1 rows /\ In t2 rows /\ hour t1 <> hour t2.
Proof.
  assert (H2 : (2 <= hours_with_events rows)%nat <->
               exists t1 t2, In t1 rows /\ In t2 rows /\ hour t1 <> hour t2).
  { rewrite hours_with_events_nodup, two_distinct. split.
    - intros (a & b & Ha & Hb & N). apply in_map_iff in Ha, Hb.
      destruct Ha as (t1 & <- & H1), Hb as (t2 & <- & Ht2). now exists t1, t2.
    - intros (t1 & t2 & H1 & Ht2 & N). exists (hour t1), (hour t2).
      split; [now apply in_map|]. split; [now apply in_map | exact N]. }
  rewrite <- H2. destruct rows as [|t rows].
  - simpl. rewrite hours_with_events_nil. split; [congruence | lia].
  - rewrite drawn_trendline_cons.
    destruct (Nat.leb_spec 2 (hours_with_events (t :: rows))) as [G|L].
    + split; [intros _; exact G | discriminate].
    + split; [congruence | lia].
Qed.

(** ** Rows and counts after a call *)

Lemma events_in_hour_app (h : Z) (l k : list timestamp) :
  events_in_hour h (l ++ k) = events_in_hour h l + events_in_hour h k.
Proof.
  unfold events_in_hour. rewrite filter_app, length_app. lia.
Qed.

Lemma events_in_hour_one (h : Z) (t : timestamp) :
  events_in_hour h [t] = if hour t =? h then 1 else 0.
Proof. unfold events_in_hour. simpl. now destruct (hour t =? h). Qed.

Lemma visible_after_take (w : world) :
  visible (snd (take_sleep_timestamp w)) = visible w \/
  visible (snd (take_sleep_timestamp w)) = visible w ++ [clock w].
Proof.
  destruct (take_sleep_timestamp_cases w) as [[_ ->] | [_ ->]].
  - now left.
  - right. unfold visible. cbn [snd driver pending].
    now rewrite app_nil_r, app_assoc.
Qed.

(** ** The object, from [__init__] to [close_connection] *)

Lemma server_of_init (now : timestamp) (srv : server) :
  server_of (SleepDatabase_init now srv) = srv.
Proof. now destruct srv. Qed.

Lemma server_of_close (p : SleepDatabase) :
  server_of (close_connection p) = server_of p.
Proof. reflexivity. Qed.

Lemma read_step_server (p p' : SleepDatabase) :
  read_step p p' ->
  server_of p' = server_of p /\
  visible (connection p') = visible (connection p) /\
  (status p <> Ready -> status p' = status p).
Proof.
  intros [t | | out p2 Hm | polyfit].
  - split; [reflexivity|]. split; [reflexivity|]. intros _. reflexivity.
  - unfold create_table. destruct (status p) eqn:E; cbn [snd];
      (split; [reflexivity|]; split; [reflexivity|]);
      intros F; first [now contradiction F | exact E | now rewrite E].
  - unfold call_most_common_sleep_hour in Hm. destruct (status p) eqn:E;
      [destruct (table_visible p)| |]; destruct Hm as [_ ->];
      (split; [reflexivity|]; split; [reflexivity|]);
      intros F; first [now contradiction F | exact E | now rewrite E].
  - unfold call_plot_sleep_trend. destruct (status p) eqn:E;
      [destruct (table_visible p)| |]; cbn [snd];
      (split; [reflexivity|]; split; [reflexivity|]);
      intros F; first [now contradiction F | exact E | now rewrite E].
Qed.

Lemma call_take_cases (p : SleepDatabase) :
  status p = Ready -> table_visible p = true ->
  (In (clock (connection p)) (visible (connection p)) /\
   call_take_sleep_timestamp p
   = (Raised (DatabaseError UniqueViolation),
      {| connection := connection p;
         table_committed := table_committed p;
         table_created := table_created p;
         status := Failed |})) \/
  (~ In (clock (connection p)) (visible (connection p)) /\
   call_take_sleep_timestamp p
   = (Returned tt,
      {| connection := snd (take_sleep_timestamp (connection p));
         table_committed := true;
         table_created := false;
         status := Ready |}) /\
   visible (connection (snd (call_take_sleep_timestamp p)))
   = visible (connection p) ++ [clock (connection p)] /\
   driver (snd (take_sleep_timestamp (connection p)))
   = visible (connection p) ++ [clock (connection p)]).
Proof.
  intros Hs Hv. unfold call_take_sleep_timestamp. rewrite Hs, Hv.
  destruct (take_sleep_timestamp_cases (connection p)) as [[Hold E] | [Hnew E]];
    rewrite E.
  - left. split; [exact Hold | reflexivity].
  - right. split; [exact Hnew|]. split; [reflexivity|].
    unfold visible. cbn [snd connection driver pending].
    now rewrite !app_nil_r, !app_assoc.
Qed.

Lemma method_step_stuck (p p' : SleepDatabase) :
  status p <> Ready -> method_step p p' ->
  status p' = status p /\
  server_of p' = server_of p /\
  visible (connection p') = visible (connection p).
Proof.
  intros Hs [p2 Hr | ].
  - destruct (read_step_server Hr) as (E1 & E2 & E3). auto.
  - unfold call_take_sleep_timestamp.
    destruct (status p) eqn:E; [now contradiction Hs | |]; cbn [snd];
      (split; [exact E|]; split; reflexivity).
Qed.

Lemma many_method_step_stuck (p p' : SleepDatabase) :
  status p <> Ready -> many method_step p p' ->
  status p' = status p /\
  server_of p' = server_of p /\
  visible (connection p') = visible (connection p).
Proof.
  intros Hs Hm. induction Hm as [|b c _ (E1 & E2 & E3) St].
  - repeat split.
  - assert (Hb : status b <> Ready) by now rewrite E1.
    destruct (method_step_stuck Hb St) as (F1 & F2 & F3).
    now rewrite F1, F2, F3.
Qed.

(** X11: recorded events survive a restart: after a call of
    [take_sleep_timestamp] that returns, [close_connection], and a new
    object made by [__init__] on the same server, the new object is
    ready and sees the rows the old one saw, followed by the new row. *)
Theorem restart_keeps_recorded_events (p : SleepDatabase) (now' : timestamp) :
  status p = Ready ->
  table_visible p = true ->
  ~ In (clock (connection p)) (visible (connection p)) ->
  fst (call_take_sleep_timestamp p) = Returned tt /\
  status (SleepDatabase_init now'
            (server_of (close_connection (snd (call_take_sleep_timestamp p)))))
  = Ready /\
  visible (connection
             (SleepDatabase_init now'
                (server_of (close_connection (snd (call_take_sleep_timestamp p))))))
  = visible (connection p) ++ [clock (connection p)].
Proof.
  intros Hs Hv Hnew.
  destruct (call_take_cases p Hs Hv) as [[Hold _] | (_ & E & _ & Ed)];
    [contradiction|].
  rewrite E. split; [reflexivity|]. split; [reflexivity|].
  unfold visible at 1. cbn. rewrite app_nil_r. exact Ed.
Qed.

Lemma restart_keeps_recorded_events_witness :
  status (SleepDatabase_init 0 None) = Ready /\
  table_visible (SleepDatabase_init 0 None) = true /\
  ~ In (clock (connection (SleepDatabase_init 0 None)))
       (visible (connection (SleepDatabase_init 0 None))) /\
  fst (call_take_sleep_timestamp (SleepDatabase_init 0 None)) = Returned tt.
Proof.
  split; [reflexivity|]. split; [reflexivity|]. split.
  - exact (fun F : In 0 [] => F).
  - exact (proj1 (restart_keeps_recorded_events (SleepDatabase_init 0 None) 0
                    eq_refl eq_refl (fun F : In 0 [] => F))).
Defined.

(** X12: nothing is committed without [take_sleep_timestamp]: an object
    that is made by [__init__], used for any number of calls of the
    other methods, and closed, leaves the server as it found it; on a
    server without the table, the table [__init__] created is not
    kept. *)
Theorem nothing_committed_without_take
    (now : timestamp) (srv : server) (p : SleepDatabase) :
  many read_step (SleepDatabase_init now srv) p ->
  server_of (close_connection p) = srv.
Proof.
  intros Hm. rewrite server_of_close.
  induction Hm as [|b c _ IH St].
  - apply server_of_init.
  - destruct (read_step_server St) as [E _]. now rewrite E.
Qed.

Lemma nothing_committed_without_take_witness :
  many read_step (SleepDatabase_init 0 None)
       (snd (call_plot_sleep_trend polyfit_normal_equations (SleepDatabase_init 0 None))) /\
  server_of (close_connection
               (snd (call_plot_sleep_trend polyfit_normal_equations
                       (SleepDatabase_init 0 None))))
  = None.
Proof.
  assert (Hm : many read_step (SleepDatabase_init 0 None)
                 (snd (call_plot_sleep_trend polyfit_normal_equations
                         (SleepDatabase_init 0 None)))).
  { eapply many_step; [apply many_refl | apply rs_plot]. }
  split.
  - exact Hm.
  - exact (nothing_committed_without_take Hm).
Defined.

(** X13: a refused insert disables the object: when
    [take_sleep_timestamp] raises [UniqueViolation], the transaction is
    left failed, and since no method rolls back, every later call of
    [take_sleep_timestamp], [plot_sleep_trend], [most_common_sleep_hour]
    and [create_table] on the object raises [InFailedSqlTransaction],
    with the table unchanged. *)
Theorem refused_insert_disables_the_object (p : SleepDatabase) :
  status p = Ready ->
  table_visible p = true ->
  In (clock (connection p)) (visible (connection p)) ->
  fst (call_take_sleep_timestamp p) = Raised (DatabaseError UniqueViolation) /\
  forall p',
    many method_step (snd (call_take_sleep_timestamp p)) p' ->
    status p' = Failed /\
    server_of p' = server_of p /\
    visible (connection p') = visible (connection p) /\
    call_take_sleep_timestamp p' = (Raised InFailedSqlTransaction, p') /\
    create_table p' = (Raised InFailedSqlTransaction, p') /\
    (forall polyfit,
       call_plot_sleep_trend polyfit p' = (Raised InFailedSqlTransaction, p')) /\
    (forall out p'',
       call_most_common_sleep_hour p' out p'' ->
       out = Raised InFailedSqlTransaction /\ p'' = p').
Proof.
  intros Hs Hv Hold.
  destruct (call_take_cases p Hs Hv) as [[_ E] | [Hnew _]]; [|contradiction].
  rewrite E. split; [reflexivity|]. cbn [snd]. intros p' Hm.
  apply many_method_step_stuck in Hm; [|discriminate].
  destruct Hm as (E1 & E2 & E3). cbn [status] in E1.
  split; [exact E1|]. split; [exact E2|]. split; [exact E3|].
  unfold call_take_sleep_timestamp, create_table, call_plot_sleep_trend,
    call_most_common_sleep_hour.
  rewrite E1. repeat split; tauto.
Qed.

Lemma refused_insert_disables_the_object_witness :
  status first_night = Ready /\
  table_visible first_night = true /\
  In (clock (connection first_night)) (visible (connection first_night)) /\
  fst (call_take_sleep_timestamp first_night)
  = Raised (DatabaseError UniqueViolation).
Proof.
  split; [reflexivity|]. split; [reflexivity|]. split.
  - exact (or_introl eq_refl).
  - exact (proj1 (refused_insert_disables_the_object first_night
                    eq_refl eq_refl (or_introl eq_refl))).
Defined.

(** X14: after [close_connection] the object is of no further use:
    every later call of a method that runs a statement raises
    [InterfaceError], and the committed table stays as it was when the
    object was closed. *)
Theorem closed_object_raises (p p' : SleepDatabase) :
  many method_step (close_connection p) p' ->
  status p' = Closed /\
  server_of p' = server_of p /\
  call_take_sleep_timestamp p' = (Raised InterfaceError, p') /\
  create_table p' = (Raised InterfaceError, p') /\
  (forall polyfit, call_plot_sleep_trend polyfit p' = (Raised InterfaceError, p')) /\
  (forall out p'',
     call_most_common_sleep_hour p' out p'' ->
     out = Raised InterfaceError /\ p'' = p').
Proof.
  intros Hm. apply many_method_step_stuck in Hm; [|discriminate].
  destruct Hm as (E1 & E2 & _). cbn [status close_connection] in E1.
  rewrite server_of_close in E2.
  split; [exact E1|]. split; [exact E2|].
  unfold call_take_sleep_timestamp, create_table, call_plot_sleep_trend,
    call_most_common_sleep_hour.
  rewrite E1. repeat split; tauto.
Qed.

Lemma closed_object_raises_witness :
  many method_step (close_connection first_night)
       (snd (call_take_sleep_timestamp (close_connection first_night))) /\
  status (snd (call_take_sleep_timestamp (close_connection first_night))) = Closed.
Proof.
  assert (Hm : many method_step (close_connection first_night)
                 (snd (call_take_sleep_timestamp (close_connection first_night)))).
  { eapply many_step; [apply many_refl | apply ms_take]. }
  split.
  - exact Hm.
  - exact (proj1 (closed_object_raises Hm)).
Defined.

Lemma call_take_server (p : SleepDatabase) (rows : list timestamp) :
  server_of p = Some rows ->
  exists l, server_of (snd (call_take_sleep_timestamp p)) = Some (rows ++ l).
Proof.
  intros Hsrv.
  assert (Hkeep : exists l, server_of p = Some (rows ++ l))
    by (exists []; now rewrite app_nil_r).
  destruct (status p) eqn:Hs.
  - destruct (table_visible p) eqn:Hv.
    + destruct (call_take_cases p Hs Hv) as [[_ E] | (_ & E & _ & Ed)]; rewrite E.
      * exact Hkeep.
      * unfold server_of in *. cbn [snd table_committed connection].
        rewrite Ed. destruct (table_committed p); [|discriminate].
        injection Hsrv as <-. exists (pending (connection p) ++ [clock (connection p)]).
        unfold visible. now rewrite app_assoc.
    + unfold call_take_sleep_timestamp. rewrite Hs, Hv. exact Hkeep.
  - unfold call_take_sleep_timestamp. rewrite Hs. exact Hkeep.
  - unfold call_take_sleep_timestamp. rewrite Hs. exact Hkeep.
Qed.

Lemma lifetime_step_server (p p' : SleepDatabase) (rows : list timestamp) :
  lifetime_step p p' ->
  server_of p = Some rows ->
  exists l, server_of p' = Some (rows ++ l).
Proof.
  intros [p2 [p3 Hr | ] | | now Hc] Hsrv.
  - destruct (read_step_server Hr) as [E _]. exists [].
    now rewrite E, app_nil_r.
  - now apply call_take_server.
  - exists []. now rewrite server_of_close, app_nil_r.
  - exists []. now rewrite server_of_init, app_nil_r.
Qed.

(** X15: no method ever deletes or changes a committed event: through
    any number of method calls, [close_connection] and new objects made
    by [__init__], the committed rows of the table stay, in their order,
    at the head of the table. *)
Theorem committed_events_are_never_lost
    (p p' : SleepDatabase) (rows : list timestamp) :
  server_of p = Some rows ->
  many lifetime_step p p' ->
  exists l, server_of p' = Some (rows ++ l).
Proof.
  intros Hsrv Hm. induction Hm as [|b c _ [l IH] St].
  - exists []. now rewrite app_nil_r.
  - destruct (lifetime_step_server St IH) as [k Ek].
    exists (l ++ k). now rewrite Ek, app_assoc.
Qed.

Lemma committed_events_are_never_lost_witness :
  server_of first_night = Some [0] /\
  many lifetime_step first_night
       (SleepDatabase_init (at_time 1 7 0) (server_of (close_connection first_night))) /\
  exists l,
    server_of (SleepDatabase_init (at_time 1 7 0)
                 (server_of (close_connection first_night)))
    = Some ([0] ++ l).
Proof.
  assert (Hm : many lifetime_step first_night
                 (SleepDatabase_init (at_time 1 7 0)
                    (server_of (close_connection first_night)))).
  { eapply many_step.
    - eapply many_step; [apply many_refl | apply ls_close].
    - apply (ls_restart (close_connection first_night) (at_time 1 7 0) eq_refl). }
  split; [reflexivity|]. split.
  - exact Hm.
  - exact (committed_events_are_never_lost
             (eq_refl : server_of first_night = Some [0]) Hm).
Defined.

Lemma take_keeps_NoDup (w : world) :
  NoDup (visible w) -> NoDup (visible (snd (take_sleep_timestamp w))).
Proof.
  intros D. destruct (take_sleep_timestamp_cases w) as [[_ ->] | [Hnew ->]].
  - exact D.
  - unfold visible in *. cbn [snd driver pending].
    rewrite app_nil_r, app_assoc. now apply NoDup_snoc.
Qed.

Lemma lifetime_step_NoDup (p p' : SleepDatabase) :
  lifetime_step p p' ->
  NoDup (visible (connection p)) -> NoDup (visible (connection p')).
Proof.
  intros [p2 [p3 Hr | ] | | now Hc] D.
  - destruct (read_step_server Hr) as (_ & E & _). now rewrite E.
  - unfold call_take_sleep_timestamp.
    destruct (status p); [destruct (table_visible p)| |]; try exact D.
    pose proof (take_keeps_NoDup (connection p) D) as D'.
    destruct (take_sleep_timestamp (connection p)) as [[[]|e] w']; exact D'.
  - unfold visible in *. cbn [close_connection connection driver pending].
    rewrite app_nil_r. now apply NoDup_app_remove_r in D.
  - unfold SleepDatabase_init, server_of, visible in *.
    destruct (table_committed p); cbn [create_table connect snd status connection
                                         driver pending].
    + rewrite app_nil_r. now apply NoDup_app_remove_r in D.
    + constructor.
Qed.

(** X16: the instants of the table stay pairwise distinct for the whole
    life of the database: from an object made by [__init__] on a server
    whose table (if there is one) has no repeated instant, through any
    number of method calls, [close_connection] and new objects made by
    [__init__], neither the rows an object sees nor the committed rows
    ever hold an instant twice. *)
Theorem instants_stay_distinct_across_restarts
    (now : timestamp) (srv : server) (p' : SleepDatabase) :
  (forall rows, srv = Some rows -> NoDup rows) ->
  many lifetime_step (SleepDatabase_init now srv) p' ->
  NoDup (visible (connection p')) /\
  (forall rows, server_of p' = Some rows -> NoDup rows).
Proof.
  intros Hsrv Hm.
  assert (D : NoDup (visible (connection p'))).
  { induction Hm as [|b c _ IH St].
    - destruct srv as [rows|]; unfold visible;
        cbn [SleepDatabase_init create_table connect snd status connection
               driver pending].
      + rewrite app_nil_r. now apply Hsrv.
      + constructor.
    - now apply (lifetime_step_NoDup St). }
  split; [exact D|]. intros rows E. unfold server_of in E.
  destruct (table_committed p'); [|discriminate]. injection E as <-.
  unfold visible in D. now apply NoDup_app_remove_r in D.
Qed.

Lemma two_mornings_distinct (rows : list timestamp) :
  two_mornings = Some rows -> NoDup rows.
Proof.
  intros E. injection E as <-. constructor.
  - simpl. intros [F | []]. discriminate F.
  - constructor; [simpl; tauto | constructor].
Qed.

Lemma instants_stay_distinct_across_restarts_witness :
  (forall rows, two_mornings = Some rows -> NoDup rows) /\
  many lifetime_step (SleepDatabase_init (at_time 2 7 0) two_mornings) fourth_morning /\
  visible (connection fourth_morning)
  = [at_time 0 7 0; at_time 1 7 0; at_time 2 7 0; at_time 3 7 0] /\
  NoDup (visible (connection fourth_morning)) /\
  (forall rows, server_of fourth_morning = Some rows -> NoDup rows).
Proof.
  assert (Hm : many lifetime_step (SleepDatabase_init (at_time 2 7 0) two_mornings)
                 fourth_morning).
  { eapply many_step.
    - eapply many_step.
      + eapply many_step.
        * eapply many_step; [apply many_refl | apply ls_method, ms_take].
        * apply ls_close.
      + apply (ls_restart (close_connection third_morning) (at_time 3 7 0) eq_refl).
    - apply ls_method, ms_take. }
  split; [exact two_mornings_distinct|]. split; [exact Hm|].
  split; [reflexivity|].
  exact (instants_stay_distinct_across_restarts two_mornings_distinct Hm).
Defined.

(** ** [take_sleep_timestamp] on the object *)

Lemma call_take_visible (p : SleepDatabase) :
  visible (connection (snd (call_take_sleep_timestamp p))) = visible (connection p) \/
  (status p = Ready /\ table_visible p = true /\
   ~ In (clock (connection p)) (visible (connection p)) /\
   fst (call_take_sleep_timestamp p) = Returned tt /\
   visible (connection (snd (call_take_sleep_timestamp p)))
   = visible (connection p) ++ [clock (connection p)]).
Proof.
  destruct (status p) eqn:Hs.
  - destruct (table_visible p) eqn:Hv.
    + destruct (call_take_cases p Hs Hv) as [[_ E] | (Hnew & E & Ev & _)].
      * left. now rewrite E.
      * right. split; [reflexivity|]. split; [reflexivity|]. split; [exact Hnew|].
        split; [now rewrite E | exact Ev].
    + left. unfold call_take_sleep_timestamp. now rewrite Hs, Hv.
  - left. unfold call_take_sleep_timestamp. now rewrite Hs.
  - left. unfold call_take_sleep_timestamp. now rewrite Hs.
Qed.

(** C8, as amended: [take_sleep_timestamp] takes no timestamp: on an
    object whose connection works, at a clock reading that is not yet
    in the table, a call returns, records exactly that reading after
    the rows that were there, and commits it; a call never adds any
    other instant than the reading of the clock; and a call that raises
    leaves the rows as they were. *)
Theorem take_sleep_timestamp_records_now :
  (forall p,
     status p = Ready ->
     table_visible p = true ->
     ~ In (clock (connection p)) (visible (connection p)) ->
     exists p',
       call_take_sleep_timestamp p = (Returned tt, p') /\
       visible (connection p') = visible (connection p) ++ [clock (connection p)] /\
       server_of p' = Some (visible (connection p) ++ [clock (connection p)]) /\
       clock (connection p') = clock (connection p) /\
       status p' = Ready) /\
  (forall p t,
     In t (visible (connection (snd (call_take_sleep_timestamp p)))) ->
     In t (visible (connection p)) \/ t = clock (connection p)) /\
  (forall p e,
     fst (call_take_sleep_timestamp p) = Raised e ->
     visible (connection (snd (call_take_sleep_timestamp p)))
     = visible (connection p)) /\
  call_take_sleep_timestamp (SleepDatabase_init 0 None)
  = (Returned tt,
     {| connection := {| clock := 0; driver := [0]; pending := [] |};
        table_committed := true;
        table_created := false;
        status := Ready |}).
Proof.
  split; [|split; [|split; [|reflexivity]]].
  - intros p Hs Hv Hnew.
    destruct (call_take_cases p Hs Hv) as [[Hold _] | (_ & E & Ev & Ed)];
      [contradiction|].
    eexists. split; [exact E|]. rewrite E in Ev. cbn [snd] in Ev.
    split; [exact Ev|]. split.
    + unfold server_of. cbn [table_committed connection]. now rewrite Ed.
    + split; [|reflexivity]. cbn [connection].
      destruct (take_sleep_timestamp_cases (connection p)) as [[Hold _] | [_ ->]];
        [contradiction | reflexivity].
  - intros p t Hin. destruct (call_take_visible p) as [E | (_ & _ & _ & _ & E)];
      rewrite E in Hin.
    + now left.
    + apply in_app_iff in Hin. simpl in Hin. destruct Hin as [Hin | [<- | []]]; auto.
  - intros p e Hr. destruct (call_take_visible p) as [E | (_ & _ & _ & Hok & _)].
    + exact E.
    + rewrite Hok in Hr. discriminate Hr.
Qed.

(** C8, the claim as stated fails: the method is no operation that takes
    a caller's timestamp and records it.  It has no such parameter:
    whatever instant a caller has in mind, the call is the same, and on
    a new table at midnight of day 0 it records that midnight, not, say,
    07:00. *)
Lemma caller_cannot_choose_the_timestamp :
  visible (connection (snd (call_take_sleep_timestamp (SleepDatabase_init 0 None))))
  = [0] /\
  ~ records_the_callers_timestamp (fun _ => call_take_sleep_timestamp).
Proof.
  split; [reflexivity|]. intros H.
  destruct (H (at_time 0 7 0) (SleepDatabase_init 0 None) eq_refl eq_refl
              (fun F : In (at_time 0 7 0) [] => F)) as [_ E].
  discriminate E.
Qed.

Lemma method_step_appends (p p' : SleepDatabase) :
  method_step p p' ->
  exists l, visible (connection p') = visible (connection p) ++ l.
Proof.
  intros [p2 Hr | ].
  - destruct (read_step_server Hr) as (_ & E & _). exists [].
    now rewrite E, app_nil_r.
  - destruct (call_take_visible p) as [E | (_ & _ & _ & _ & E)]; rewrite E.
    + exists []. now rewrite app_nil_r.
    + now exists [clock (connection p)].
Qed.

(** X8: no method call removes a row: after any number of calls of the
    methods (and changes of the clock) on an object, every row the
    object saw is still in the table, the table is not shorter, and no
    hour has lost an event. *)
Theorem table_only_grows (p p' : SleepDatabase) :
  many method_step p p' ->
  (forall t, In t (visible (connection p)) -> In t (visible (connection p'))) /\
  (length (visible (connection p)) <= length (visible (connection p')))%nat /\
  (forall h, events_in_hour h (visible (connection p))
             <= events_in_hour h (visible (connection p'))).
Proof.
  intros Hs.
  assert (A : exists l, visible (connection p') = visible (connection p) ++ l).
  { induction Hs as [|b c _ [l IH] St].
    - exists []. now rewrite app_nil_r.
    - destruct (method_step_appends St) as [k Ek].
      exists (l ++ k). now rewrite Ek, IH, app_assoc. }
  destruct A as [l ->]. split; [|split].
  - intros t Hin. apply in_app_iff. now left.
  - rewrite length_app. lia.
  - intros h. rewrite events_in_hour_app.
    pose proof (events_in_hour_nonneg h l). lia.
Qed.

Lemma table_only_grows_witness :
  many method_step first_night (snd (call_take_sleep_timestamp second_morning)) /\
  visible (connection first_night) = [0] /\
  visible (connection (snd (call_take_sleep_timestamp second_morning)))
  = [0; at_time 1 7 0] /\
  (forall t, In t (visible (connection first_night)) ->
             In t (visible (connection (snd (call_take_sleep_timestamp second_morning))))).
Proof.
  assert (Hs : many method_step first_night
                 (snd (call_take_sleep_timestamp second_morning))).
  { eapply many_step.
    - eapply many_step; [apply many_refl|].
      apply ms_read. apply (rs_time first_night (at_time 1 7 0)).
    - apply (ms_take second_morning). }
  split; [exact Hs|]. split; [reflexivity|]. split; [reflexivity|].
  exact (proj1 (table_only_grows Hs)).
Defined.

(** X9: on an object whose connection works, a call of
    [take_sleep_timestamp] at a clock reading that is not in the table
    returns and raises the count of the hour of that reading by one,
    leaving the counts of the other hours as they were; the chart of
    [plot_sleep_trend] on the object after the call has these bars. *)
Theorem take_sleep_timestamp_adds_one_to_its_hour (p : SleepDatabase) :
  status p = Ready ->
  table_visible p = true ->
  ~ In (clock (connection p)) (visible (connection p)) ->
  fst (call_take_sleep_timestamp p) = Returned tt /\
  (forall h,
     events_in_hour h (visible (connection (snd (call_take_sleep_timestamp p))))
     = events_in_hour h (visible (connection p))
       + (if hour (clock (connection p)) =? h then 1 else 0)) /\
  (forall polyfit, exists fig,
     fst (call_plot_sleep_trend polyfit (snd (call_take_sleep_timestamp p)))
     = Returned (Shown fig) /\
     forall h, 0 <= h < 24 ->
       nth (Z.to_nat h) (snd (bar fig)) 0
       = events_in_hour h (visible (connection p))
         + (if hour (clock (connection p)) =? h then 1 else 0)).
Proof.
  intros Hs Hv Hnew.
  destruct (call_take_cases p Hs Hv) as [[Hold _] | (_ & E & Ev & _)];
    [contradiction|].
  assert (Ec : forall h,
             events_in_hour h (visible (connection (snd (call_take_sleep_timestamp p))))
             = events_in_hour h (visible (connection p))
               + (if hour (clock (connection p)) =? h then 1 else 0)).
  { intros h. now rewrite Ev, events_in_hour_app, events_in_hour_one. }
  split; [now rewrite E|]. split; [exact Ec|].
  assert (Hs1 : status (snd (call_take_sleep_timestamp p)) = Ready) by now rewrite E.
  assert (Hv1 : table_visible (snd (call_take_sleep_timestamp p)) = true)
    by now rewrite E.
  intros polyfit. unfold call_plot_sleep_trend. rewrite Hs1, Hv1. cbn [fst].
  destruct (visible (connection (snd (call_take_sleep_timestamp p)))) as [|t rows] eqn:Et.
  - exfalso. symmetry in Ev. now apply app_eq_nil in Ev as [_ F].
  - eexists. split; [now rewrite plot_sleep_trend_cons|]. cbn [bar snd].
    intros h Hh. rewrite nth_map_range by exact Hh. apply Ec.
Qed.

Lemma second_morning_is_new :
  ~ In (clock (connection second_morning)) (visible (connection second_morning)).
Proof. intros [F | []]. discriminate F. Qed.

Lemma take_sleep_timestamp_adds_one_to_its_hour_witness :
  status second_morning = Ready /\
  table_visible second_morning = true /\
  ~ In (clock (connection second_morning)) (visible (connection second_morning)) /\
  fst (call_take_sleep_timestamp second_morning) = Returned tt /\
  (forall h,
     events_in_hour h (visible (connection (snd (call_take_sleep_timestamp second_morning))))
     = events_in_hour h (visible (connection second_morning))
       + (if hour (clock (connection second_morning)) =? h then 1 else 0)).
Proof.
  split; [reflexivity|]. split; [reflexivity|]. split; [exact second_morning_is_new|].
  split.
  - exact (proj1 (take_sleep_timestamp_adds_one_to_its_hour second_morning
                    eq_refl eq_refl second_morning_is_new)).
  - exact (proj1 (proj2 (take_sleep_timestamp_adds_one_to_its_hour second_morning
                           eq_refl eq_refl second_morning_is_new))).
Defined.

(** X10: [take_sleep_timestamp] cannot be repeated within one tick of
    the clock: after a call that returned, a second call before the
    clock has moved raises [UniqueViolation], adds no row, and leaves
    the transaction of the object failed. *)
Theorem second_call_without_tick_is_refused (p : SleepDatabase) :
  status p = Ready ->
  table_visible p = true ->
  ~ In (clock (connection p)) (visible (connection p)) ->
  fst (call_take_sleep_timestamp p) = Returned tt /\
  fst (call_take_sleep_timestamp (snd (call_take_sleep_timestamp p)))
  = Raised (DatabaseError UniqueViolation) /\
  status (snd (call_take_sleep_timestamp (snd (call_take_sleep_timestamp p)))) = Failed /\
  visible (connection (snd (call_take_sleep_timestamp (snd (call_take_sleep_timestamp p)))))
  = visible (connection p) ++ [clock (connection p)].
Proof.
  intros Hs Hv Hnew.
  destruct (call_take_cases p Hs Hv) as [[Hold _] | (_ & E & Ev & _)];
    [contradiction|].
  assert (Hc : clock (connection (snd (call_take_sleep_timestamp p)))
               = clock (connection p)).
  { rewrite E. cbn [snd connection].
    destruct (take_sleep_timestamp_cases (connection p)) as [[Hold _] | [_ ->]];
      [contradiction | reflexivity]. }
  assert (Hs1 : status (snd (call_take_sleep_timestamp p)) = Ready) by now rewrite E.
  assert (Hv1 : table_visible (snd (call_take_sleep_timestamp p)) = true)
    by now rewrite E.
  split; [now rewrite E|].
  destruct (call_take_cases _ Hs1 Hv1) as [[_ E1] | (Hnew1 & _)].
  - rewrite E1. cbn [fst snd status connection]. split; [reflexivity|].
    split; [reflexivity | exact Ev].
  - exfalso. apply Hnew1. rewrite Hc, Ev. apply in_app_iff. right. now left.
Qed.

Lemma second_call_without_tick_is_refused_witness :
  status (SleepDatabase_init 0 None) = Ready /\
  table_visible (SleepDatabase_init 0 None) = true /\
  ~ In (clock (connection (SleepDatabase_init 0 None)))
       (visible (connection (SleepDatabase_init 0 None))) /\
  fst (call_take_sleep_timestamp
         (snd (call_take_sleep_timestamp (SleepDatabase_init 0 None))))
  = Raised (DatabaseError UniqueViolation).
Proof.
  split; [reflexivity|]. split; [reflexivity|]. split.
  - exact (fun F : In 0 [] => F).
  - exact (proj1 (proj2 (second_call_without_tick_is_refused (SleepDatabase_init 0 None)
                           eq_refl eq_refl (fun F : In 0 [] => F)))).
Defined.
